(** * OpenAIClient: the singleton client of [clients/openai_client.py]

    The module wraps one connection to the remote service behind a
    process-wide singleton.  Every method is a coroutine: it runs without
    interruption between two [await]s that really suspend (the remote calls)
    and the event loop may run other tasks while it is suspended.

    The development embeds the class as follows.
    - Python text is a [string] of code points below 256; [strip] and
      [lower] follow [str.strip] and [str.lower] on that range.
    - The interpreter state is a [world]: the class attribute [_instance],
      the heap of client objects, the heap of list objects owned by callers,
      the locks, the log and the requests put on the wire.
    - A coroutine is a term of [coro]: state access, lock acquisition and
      awaited remote calls, with [Raise] for exceptions.  [run] executes one
      coroutine alone, [loop] interleaves several the way the event loop
      does. *)

From Stdlib Require Import List String Ascii Bool ZArith NArith Lia PrimFloat.
From Stdlib Require Import DecimalString.
Import ListNotations.
Open Scope string_scope.

Set Implicit Arguments.

(** ** Text *)

Module Text.

(** [str.isspace] for one code point below 256. *)
Definition isspace (c : ascii) : bool :=
  let n := nat_of_ascii c in
  ((9 <=? n) && (n <=? 13) || (28 <=? n) && (n <=? 32)
   || (n =? 133) || (n =? 160))%nat.

Fixpoint lstrip (s : string) : string :=
  match s with
  | EmptyString => EmptyString
  | String c s' => if isspace c then lstrip s' else s
  end.

Fixpoint rstrip (s : string) : string :=
  match s with
  | EmptyString => EmptyString
  | String c s' =>
      match rstrip s' with
      | EmptyString => if isspace c then EmptyString else String c EmptyString
      | r => String c r
      end
  end.

(** [s.strip()] *)
Definition strip (s : string) : string := rstrip (lstrip s).

Definition lower_char (c : ascii) : ascii :=
  let n := nat_of_ascii c in
  if ((65 <=? n) && (n <=? 90)
      || (192 <=? n) && (n <=? 222) && negb (n =? 215))%nat
  then ascii_of_nat (n + 32) else c.

(** [s.lower()] *)
Fixpoint lower (s : string) : string :=
  match s with
  | EmptyString => EmptyString
  | String c s' => String (lower_char c) (lower s')
  end.

(** [x in xs] for a list of strings. *)
Fixpoint contains (x : string) (xs : list string) : bool :=
  match xs with
  | [] => false
  | y :: ys => String.eqb x y || contains x ys
  end.

(** [str(n)] for an integer. *)
Definition of_int (n : Z) : string := NilZero.string_of_int (Z.to_int n).

End Text.

(** ** Exceptions *)

Inductive exn_class : Type :=
| AttributeError
| IndexError
| TypeError
| RuntimeError
| APIError            (* any error class of the SDK: connection, timeout, status *)
| CancelledError      (* asyncio.CancelledError, a BaseException *)
| KeyboardInterrupt
| SystemExit
| NoSuchObject.       (* not a Python class: a reference to no object *)

Record exn : Type := mkExn { exn_cls : exn_class; exn_str : string }.

(** [isinstance(e, Exception)]: what [except Exception] handles. *)
Definition is_Exception (e : exn) : bool :=
  match exn_cls e with
  | CancelledError | KeyboardInterrupt | SystemExit | NoSuchObject => false
  | _ => true
  end.

(** ** Data owned by the caller and by the SDK *)

(** [models.threads.GLMessage]: the two fields the client reads, and the text
    [str(message)] renders in a log line. *)
Record GLMessage : Type := mkGLMessage {
  gl_role : string;
  gl_content : string;
  gl_str : string
}.

Inductive content_part : Type :=
| TextPart (text : string)
| ImageUrlPart (url : string).

Inductive message_content : Type :=
| Text (s : string)
| Parts (ps : list content_part).

(** One dict of an OpenAI message list: [{"role": ..., "content": ...}]. *)
Record oai_message : Type := mkMsg {
  role : string;
  content : message_content
}.

(** One choice of a chat completion; [choice_text c] is
    [c.message.content]. *)
Record choice : Type := mkChoice { choice_text : string }.

Record completion : Type := mkCompletion { choices : list choice }.

Record thread : Type := mkThread { thread_id_of : string }.

Record assistant_obj : Type := mkAssistant { assistant_id_of : string }.

(** The handle [openai.AsyncOpenAI(api_key=...)]. *)
Record AsyncOpenAI : Type := mkClient { api_key : string }.

(** ** Configuration: the constants of [core.config] *)

Record config : Type := mkConfig {
  OPENAI_API_KEY : string;
  COT_MODEL_ID : string;
  MSG_MODEL_ID : string;
  IMG_MODEL_ID : string;
  COT_MODEL_TEMP : float;
  MSG_MODEL_TEMP : float;
  IMG_MODEL_TEMP : float;
  ASSISTANT_ID : string
}.

(** ** Remote calls *)

Inductive request : Type -> Type :=
| AssistantsRetrieve (assistant_id : string) : request assistant_obj
| ThreadsCreate : request thread
| MessagesCreate (thread_id content role : string) : request unit
| ChatCompletionsCreate (model : string) (messages : list oai_message)
    (max_tokens : Z) (temperature : float) : request completion
| RunsStream (thread_id assistant_id : string) : request unit
| StreamUntilDone : request unit
| StreamClose : request unit.

(** What an awaited remote call gives back. *)
Inductive reply (B : Type) : Type :=
| Replied (v : B)
| Failed (e : exn).
Arguments Failed {B} e.

Inductive call : Type :=
| Call (B : Type) (r : request B).

Definition is_retrieve (c : call) : bool :=
  match c with
  | Call (AssistantsRetrieve _) => true
  | _ => false
  end.

(** ** The interpreter state *)

(** An [OpenAIClient] object.  An attribute that has not been assigned yet is
    [None]; [assistant] assigned to Python's [None] is [Some None]. *)
Record instance : Type := mkInstance {
  _initialized : bool;
  client : option AsyncOpenAI;
  assistant : option (option assistant_obj);
  chain_of_thought_model_id : option string;
  chain_of_thought_temp : option float;
  message_model_id : option string;
  message_model_temp : option float;
  image_model_id : option string;
  image_model_temp : option float
}.

Inductive level : Type := DEBUG | INFO | ERROR.

Record log_record : Type := mkLog { log_level : level; log_text : string }.

Inductive lock_ref : Type :=
| ClassLock                 (* OpenAIClient._lock, a threading.Lock *)
| AsyncLock (n : nat).      (* the n-th asyncio.Lock() object created *)

Definition loc := nat.

Record world : Type := mkWorld {
  cls_instance : option loc;            (* OpenAIClient._instance *)
  cls_lock : bool;                      (* OpenAIClient._lock is held *)
  objects : list instance;              (* client objects, by address *)
  pylists : list (list oai_message);    (* list objects of callers, by address *)
  async_locks : list bool;              (* asyncio.Lock objects: held? *)
  logs : list log_record;               (* records of logger 'AsyncOpenAI' *)
  wire : list call                      (* remote calls issued so far *)
}.

Definition set_cls_instance (v : option loc) (w : world) : world :=
  mkWorld v (cls_lock w) (objects w) (pylists w) (async_locks w) (logs w) (wire w).
Definition set_cls_lock (v : bool) (w : world) : world :=
  mkWorld (cls_instance w) v (objects w) (pylists w) (async_locks w) (logs w) (wire w).
Definition set_objects (v : list instance) (w : world) : world :=
  mkWorld (cls_instance w) (cls_lock w) v (pylists w) (async_locks w) (logs w) (wire w).
Definition set_async_locks (v : list bool) (w : world) : world :=
  mkWorld (cls_instance w) (cls_lock w) (objects w) (pylists w) v (logs w) (wire w).
Definition set_logs (v : list log_record) (w : world) : world :=
  mkWorld (cls_instance w) (cls_lock w) (objects w) (pylists w) (async_locks w) v (wire w).
Definition set_wire (v : list call) (w : world) : world :=
  mkWorld (cls_instance w) (cls_lock w) (objects w) (pylists w) (async_locks w) (logs w) v.

(** [xs[i] = x]; the callers below only write at an allocated address. *)
Fixpoint update {A : Type} (i : nat) (x : A) (xs : list A) : list A :=
  match xs, i with
  | [], _ => []
  | _ :: t, O => x :: t
  | h :: t, S j => h :: update j x t
  end.

Definition lock_held (w : world) (l : lock_ref) : bool :=
  match l with
  | ClassLock => cls_lock w
  | AsyncLock n => nth n (async_locks w) false
  end.

Definition set_lock (l : lock_ref) (v : bool) (w : world) : world :=
  match l with
  | ClassLock => set_cls_lock v w
  | AsyncLock n => set_async_locks (update n v (async_locks w)) w
  end.

(** The state of a process that has imported the module and done nothing
    else. *)
Definition fresh_world : world := mkWorld None false [] [] [] [] [].

(** ** Coroutines *)

Inductive coro (A : Type) : Type :=
| Return (a : A)
| Raise (e : exn)
| Get (k : world -> coro A)
| Put (w : world) (k : coro A)
| Acquire (l : lock_ref) (k : coro A)     (* suspends while [l] is held *)
| Await (B : Type) (r : request B) (k : reply B -> coro A).   (* suspends *)

Arguments Return {A} a.
Arguments Raise {A} e.
Arguments Get {A} k.
Arguments Put {A} w k.
Arguments Acquire {A} l k.
Arguments Await {A B} r k.

Fixpoint bind {A B : Type} (c : coro A) (f : A -> coro B) : coro B :=
  match c with
  | Return a => f a
  | Raise e => Raise e
  | Get k => Get (fun w => bind (k w) f)
  | Put w k => Put w (bind k f)
  | Acquire l k => Acquire l (bind k f)
  | Await r k => Await r (fun x => bind (k x) f)
  end.

Declare Scope coro_scope.
Delimit Scope coro_scope with coro.
Notation "x <- c ;; k" := (bind c (fun x => k))
  (at level 61, c at next level, right associativity) : coro_scope.
Notation "c ;; k" := (bind c (fun _ => k))
  (at level 61, right associativity) : coro_scope.
Open Scope coro_scope.

(** [try: body  except Exception as e: handler e] *)
Fixpoint try_except {A : Type} (body : coro A) (handler : exn -> coro A) : coro A :=
  match body with
  | Return a => Return a
  | Raise e => if is_Exception e then handler e else Raise e
  | Get k => Get (fun w => try_except (k w) handler)
  | Put w k => Put w (try_except k handler)
  | Acquire l k => Acquire l (try_except k handler)
  | Await r k => Await r (fun x => try_except (k x) handler)
  end.

(** [body] followed by [final] on every way out of [body]; an exception of
    [body] is raised again after [final]. *)
Fixpoint ensuring {A : Type} (body : coro A) (final : coro unit) : coro A :=
  match body with
  | Return a => final ;; Return a
  | Raise e => final ;; Raise e
  | Get k => Get (fun w => ensuring (k w) final)
  | Put w k => Put w (ensuring k final)
  | Acquire l k => Acquire l (ensuring k final)
  | Await r k => Await r (fun x => ensuring (k x) final)
  end.

(** [with mgr as r: body] and [async with mgr as r: body]: [enter] is
    [__enter__]/[__aenter__], [leave] is [__exit__]/[__aexit__] (which
    returns [None] for the managers used here, so nothing is swallowed). *)
Definition with_ {R A : Type} (enter : coro R) (leave : R -> coro unit)
    (body : R -> coro A) : coro A :=
  r <- enter ;; ensuring (body r) (leave r).

Definition modify (f : world -> world) : coro unit :=
  Get (fun w => Put (f w) (Return tt)).

Definition await {B : Type} (r : request B) : coro B :=
  Await r (fun x => match x with Replied v => Return v | Failed e => Raise e end).

(** [threading.Lock] / [asyncio.Lock] as context managers. *)
Definition acquire (l : lock_ref) : coro lock_ref := Acquire l (Return l).
Definition release (l : lock_ref) : coro unit := modify (set_lock l false).

(** [asyncio.Lock()]: a new, free lock object. *)
Definition new_asyncio_Lock : coro lock_ref :=
  Get (fun w =>
    Put (set_async_locks (async_locks w ++ [false])%list w)
        (Return (AsyncLock (List.length (async_locks w))))).

(** ** Logging *)

Definition logger (lv : level) (text : string) : coro unit :=
  modify (fun w => set_logs (logs w ++ [mkLog lv text])%list w).

(** ** Running one coroutine alone *)

(** The remote side: the reply to the [n]-th call issued, for every
    request. *)
Definition remote : Type := nat -> forall B : Type, request B -> reply B.

Inductive outcome (A : Type) : Type :=
| Returned (a : A)
| Raised (e : exn)
| Deadlock.
Arguments Raised {A} e.
Arguments Deadlock {A}.

Definition issue {B : Type} (r : request B) (w : world) : world :=
  set_wire (wire w ++ [Call r])%list w.

Fixpoint run {A : Type} (net : remote) (c : coro A) (w : world) : outcome A * world :=
  match c with
  | Return a => (Returned a, w)
  | Raise e => (Raised e, w)
  | Get k => run net (k w) w
  | Put w' k => run net k w'
  | Acquire l k =>
      if lock_held w l then (Deadlock, w) else run net k (set_lock l true w)
  | Await r k => run net (k (net (List.length (wire w)) _ r)) (issue r w)
  end.

(** ** The event loop *)

(** A task is a coroutine that has not run yet or is ready to go on, one
    suspended in an awaited remote call, or one that is over. *)
Inductive task (A : Type) : Type :=
| Ready (c : coro A)
| Pending (B : Type) (r : request B) (k : reply B -> coro A)
| Over (o : outcome A).
Arguments Pending {A B} r k.

(** Run a coroutine up to its next suspension. *)
Fixpoint advance {A : Type} (c : coro A) (w : world) : task A * world :=
  match c with
  | Return a => (Over (Returned a), w)
  | Raise e => (Over (Raised e), w)
  | Get k => advance (k w) w
  | Put w' k => advance k w'
  | Acquire l k =>
      if lock_held w l then (Ready c, w) else advance k (set_lock l true w)
  | Await r k => (Pending r k, issue r w)
  end.

(** One turn of the loop for a task: a ready task runs; a pending one
    receives the reply [net] has for its call and runs on. *)
Definition turn {A : Type} (net : forall B : Type, request B -> reply B)
    (t : task A) (w : world) : task A * world :=
  match t with
  | Ready c => advance c w
  | Pending r k => advance (k (net _ r)) w
  | Over o => (t, w)
  end.

(** An event of a schedule: task [ev_task] takes a turn. *)
Record event : Type := mkEvent {
  ev_task : nat;
  ev_net : forall B : Type, request B -> reply B
}.

Definition step {A : Type} (ev : event) (st : list (task A) * world)
  : list (task A) * world :=
  let (ts, w) := st in
  match nth_error ts (ev_task ev) with
  | Some t => let (t', w') := turn (ev_net ev) t w in (update (ev_task ev) t' ts, w')
  | None => st
  end.

Definition loop {A : Type} (sched : list event) (st : list (task A) * world)
  : list (task A) * world :=
  fold_left (fun s ev => step ev s) sched st.

(** ** Objects and attributes *)

(** An address that holds no object does not arise in Python; reading one
    raises an error that no handler catches, so that the functions below are
    total. *)
Definition dangling {A : Type} : coro A :=
  Raise (mkExn NoSuchObject "dangling reference").

Definition deref (self : loc) : coro instance :=
  Get (fun w =>
    match nth_error (objects w) self with
    | Some o => Return o
    | None => dangling
    end).

(** [self.name] for an attribute that may not have been assigned yet. *)
Definition getattr {T : Type} (name : string) (field : instance -> option T)
    (self : loc) : coro T :=
  o <- deref self ;;
  match field o with
  | Some v => Return v
  | None =>
      Raise (mkExn AttributeError
               ("'OpenAIClient' object has no attribute '" ++ name ++ "'"))
  end.

(** [self.name = v], as a change [f] of the object. *)
Definition setattr (f : instance -> instance) (self : loc) : coro unit :=
  o <- deref self ;;
  modify (fun w => set_objects (update self (f o) (objects w)) w).

(** A method called on what [cls()] returned: on [None] Python raises
    [AttributeError]. *)
Definition on_object {A : Type} (name : string) (o : option loc)
    (m : loc -> coro A) : coro A :=
  match o with
  | Some self => m self
  | None =>
      Raise (mkExn AttributeError
               ("'NoneType' object has no attribute '" ++ name ++ "'"))
  end.

Definition with_initialized (v : bool) (o : instance) : instance :=
  mkInstance v (client o) (assistant o)
    (chain_of_thought_model_id o) (chain_of_thought_temp o)
    (message_model_id o) (message_model_temp o)
    (image_model_id o) (image_model_temp o).
Definition with_client (v : AsyncOpenAI) (o : instance) : instance :=
  mkInstance (_initialized o) (Some v) (assistant o)
    (chain_of_thought_model_id o) (chain_of_thought_temp o)
    (message_model_id o) (message_model_temp o)
    (image_model_id o) (image_model_temp o).
Definition with_assistant (v : option assistant_obj) (o : instance) : instance :=
  mkInstance (_initialized o) (client o) (Some v)
    (chain_of_thought_model_id o) (chain_of_thought_temp o)
    (message_model_id o) (message_model_temp o)
    (image_model_id o) (image_model_temp o).
Definition with_chain_of_thought_model_id (v : string) (o : instance) : instance :=
  mkInstance (_initialized o) (client o) (assistant o)
    (Some v) (chain_of_thought_temp o)
    (message_model_id o) (message_model_temp o)
    (image_model_id o) (image_model_temp o).
Definition with_chain_of_thought_temp (v : float) (o : instance) : instance :=
  mkInstance (_initialized o) (client o) (assistant o)
    (chain_of_thought_model_id o) (Some v)
    (message_model_id o) (message_model_temp o)
    (image_model_id o) (image_model_temp o).
Definition with_message_model_id (v : string) (o : instance) : instance :=
  mkInstance (_initialized o) (client o) (assistant o)
    (chain_of_thought_model_id o) (chain_of_thought_temp o)
    (Some v) (message_model_temp o)
    (image_model_id o) (image_model_temp o).
Definition with_message_model_temp (v : float) (o : instance) : instance :=
  mkInstance (_initialized o) (client o) (assistant o)
    (chain_of_thought_model_id o) (chain_of_thought_temp o)
    (message_model_id o) (Some v)
    (image_model_id o) (image_model_temp o).
Definition with_image_model_id (v : string) (o : instance) : instance :=
  mkInstance (_initialized o) (client o) (assistant o)
    (chain_of_thought_model_id o) (chain_of_thought_temp o)
    (message_model_id o) (message_model_temp o)
    (Some v) (image_model_temp o).
Definition with_image_model_temp (v : float) (o : instance) : instance :=
  mkInstance (_initialized o) (client o) (assistant o)
    (chain_of_thought_model_id o) (chain_of_thought_temp o)
    (message_model_id o) (message_model_temp o)
    (image_model_id o) (Some v).

(** [super().__new__(cls)] followed by [_initialized = False]. *)
Definition blank : instance :=
  mkInstance false None None None None None None None None.

Definition nl : string := String (ascii_of_nat 10) EmptyString.

(** [xs[0]] *)
Definition first {A : Type} (xs : list A) : coro A :=
  match xs with
  | x :: _ => Return x
  | [] => Raise (mkExn IndexError "list index out of range")
  end.

(** The elements of the list object at [ref], as [*ref] unpacks them. *)
Definition unpack (ref : loc) : coro (list oai_message) :=
  Get (fun w =>
    match nth_error (pylists w) ref with
    | Some xs => Return xs
    | None => dangling
    end).

(** ** class OpenAIClient *)

Section OpenAIClient.

Variable cfg : config.

(** [__new__]: double-checked creation of the one instance under the
    class lock.  The result is [cls._instance], whatever it holds. *)
Definition __new__ : coro (option loc) :=
  Get (fun w =>
    match cls_instance w with
    | None =>
        with_ (acquire ClassLock) release (fun _ =>
          Get (fun w1 =>
            match cls_instance w1 with
            | None =>
                Put (set_cls_instance (Some (List.length (objects w1)))
                       (set_objects (objects w1 ++ [blank])%list w1))
                    (Return tt)
            | Some _ => Return tt
            end))
    | Some _ => Return tt
    end) ;;
  Get (fun w => Return (cls_instance w)).

(** [cls()]: [__new__], then the inherited [__init__], which does
    nothing. *)
Definition cls : coro (option loc) := __new__.

Definition async_init (self : loc) : coro unit :=
  o <- deref self ;;
  if negb (_initialized o) then
    with_ (l <- new_asyncio_Lock ;; acquire l) release (fun _ =>
      o <- deref self ;;
      if negb (_initialized o) then
        setattr (with_client (mkClient (OPENAI_API_KEY cfg))) self ;;
        try_except
          (c <- getattr "client" client self ;;
           a <- await (AssistantsRetrieve (ASSISTANT_ID cfg)) ;;
           setattr (with_assistant (Some a)) self ;;
           logger INFO
             ("Assistant " ++ ASSISTANT_ID cfg ++ " retrieved successfully."))
          (fun e =>
             logger ERROR
               ("Error retrieving assistant " ++ ASSISTANT_ID cfg ++ ": "
                ++ exn_str e) ;;
             setattr (with_assistant None) self) ;;
        setattr (with_chain_of_thought_model_id (COT_MODEL_ID cfg)) self ;;
        setattr (with_chain_of_thought_temp (COT_MODEL_TEMP cfg)) self ;;
        setattr (with_message_model_id (MSG_MODEL_ID cfg)) self ;;
        setattr (with_message_model_temp (MSG_MODEL_TEMP cfg)) self ;;
        setattr (with_image_model_id (IMG_MODEL_ID cfg)) self ;;
        setattr (with_image_model_temp (IMG_MODEL_TEMP cfg)) self ;;
        setattr (with_initialized true) self
      else Return tt)
  else Return tt.

Definition create : coro (option loc) :=
  instance <- cls ;;
  on_object "async_init" instance async_init ;;
  Return instance.

Definition not_ready : exn :=
  mkExn RuntimeError
    "OpenAIClient must be initialized asynchronously using `await OpenAIClient.create()` before accessing it.".

Definition get_instance : coro (option loc) :=
  instance <- cls ;;
  o <- on_object "_initialized" instance deref ;;
  if negb (_initialized o) then Raise not_ready
  else Return instance.

Definition create_asst_thread (self : loc) (user_id : Z) : coro (option string) :=
  try_except
    (logger DEBUG
       ("Creating assistant thread for user " ++ Text.of_int user_id) ;;
     c <- getattr "client" client self ;;
     thread <- await ThreadsCreate ;;
     Return (Some (thread_id_of thread)))
    (fun e =>
       logger ERROR
         ("Failed to create thread for user " ++ Text.of_int user_id ++ ": "
          ++ exn_str e) ;;
       Return None).

Definition add_to_asst_thread (self : loc) (thread_id : string)
    (message : GLMessage) : coro bool :=
  try_except
    (c <- getattr "client" client self ;;
     await (MessagesCreate thread_id (gl_content message) (gl_role message)) ;;
     logger INFO ("Added message to asst thread " ++ thread_id) ;;
     Return true)
    (fun e =>
       logger ERROR
         ("Failed to add message to thread:" ++ nl ++ gl_str message ++ nl
          ++ "THREAD:" ++ thread_id ++ nl ++ exn_str e ++ nl) ;;
       Return false).

Definition image_describer (self : loc) (base64_str : string) : coro string :=
  try_except
    (let system_prompt :=
       "Your purpose is to provide a description of the image content embeded in the message."
       ++ nl ++ nl
       ++ "Provide a succinct description useful for someone who can't see it. "
       ++ "Include any relevant text or context in the image, but try to keep it concise." in
     let user_prompt :=
       "What is in this image? Provide a succinct description useful for someone who can't see it." in
     c <- getattr "client" client self ;;
     model <- getattr "image_model_id" image_model_id self ;;
     temperature <- getattr "image_model_temp" image_model_temp self ;;
     response <- await
       (ChatCompletionsCreate model
          [ mkMsg "system" (Text system_prompt);
            mkMsg "user"
              (Parts [ TextPart user_prompt;
                       ImageUrlPart ("data:image/jpeg;base64," ++ base64_str) ]) ]
          300 temperature) ;;
     match choices response with
     | [] => Return "No description available"
     | ch :: _ => Return (choice_text ch)
     end)
    (fun e =>
       logger ERROR ("Error processing image content: " ++ exn_str e) ;;
       Return "No description available").

Definition text_summarizer (self : loc) (description : string) : coro string :=
  try_except
    (let system_prompt :=
       "Your purpose is to provide a concise, succint summary of text descriptions." in
     let user_prompt :=
       "Create a concise, succint, one-to-two-sentence summary for the following description:"
       ++ nl ++ nl ++ description ++ nl ++ nl ++ "Summary:" in
     c <- getattr "client" client self ;;
     model <- getattr "message_model_id" message_model_id self ;;
     temperature <- getattr "message_model_temp" message_model_temp self ;;
     response <- await
       (ChatCompletionsCreate model
          [ mkMsg "system" (Text system_prompt);
            mkMsg "user" (Text user_prompt) ]
          100 temperature) ;;
     match choices response with
     | [] => Return "No summary available"
     | ch :: _ => Return (Text.strip (choice_text ch))
     end)
    (fun e =>
       logger ERROR ("Error summarizing description: " ++ exn_str e) ;;
       Return "No summary available").

Definition link_summarizer (self : loc) (url : string) : coro string :=
  try_except
    (let system_prompt :=
       "Your purpose is to describe the content of a webpage based on its URL."
       ++ nl ++ nl
       ++ "Extract any details you can from the names, titles, and descriptions in the URL."
       ++ nl ++ nl
       ++ "Provide a concise, succint summary of the content that would be useful for someone who can't access the page." in
     let user_prompt :=
       "Please describe the content of the webpage at the following URL: "
       ++ url ++ nl ++ nl ++ "Description:" in
     c <- getattr "client" client self ;;
     model <- getattr "message_model_id" message_model_id self ;;
     temperature <- getattr "message_model_temp" message_model_temp self ;;
     response <- await
       (ChatCompletionsCreate model
          [ mkMsg "system" (Text system_prompt);
            mkMsg "user" (Text user_prompt) ]
          100 temperature) ;;
     match choices response with
     | [] => Return "No summary available"
     | ch :: _ => Return (Text.strip (choice_text ch))
     end)
    (fun e =>
       logger ERROR ("Error summarizing description: " ++ exn_str e) ;;
       Return "No summary available").

Definition content_type_system_prompt : string :=
  "Based on the most recent message, reply with one word that best describes the type of response that would be most relevant and helpful: 'message', 'GIF', 'YouTube', or 'Website'"
  ++ nl
  ++ "Do not provide any additional text or explanations." ++ nl
  ++ "If the user asks for the latest news or current events, respond with 'Website'."
  ++ nl
  ++ "If a user responds with a Website, YouTube, or GIF, the bot should respond with a message."
  ++ nl
  ++ "**ONLY REPLY WITH ONE OF THE FOLLOWING WORDS:**: message, GIF, YouTube, or Website".

Definition content_type_question : string :=
  "Now determine the content type of your response: message, GIF, YouTube, or Website.".

(** [OAI_messages] is the address of the caller's list object. *)
Definition determine_content_type (self : loc) (OAI_messages : loc)
  : coro (option string) :=
  unpacked <- unpack OAI_messages ;;
  let messages :=
    (mkMsg "system" (Text content_type_system_prompt)
     :: unpacked
     ++ [ mkMsg "user" (Text content_type_question) ])%list in
  try_except
    (c <- getattr "client" client self ;;
     model <- getattr "chain_of_thought_model_id" chain_of_thought_model_id self ;;
     temperature <- getattr "chain_of_thought_temp" chain_of_thought_temp self ;;
     response <- await (ChatCompletionsCreate model messages 10 temperature) ;;
     ch <- first (choices response) ;;
     let content_type := Text.lower (Text.strip (choice_text ch)) in
     if Text.contains content_type ["message"; "gif"; "youtube"; "website"]
     then Return (Some content_type)
     else
       logger ERROR ("Invalid content type '" ++ content_type) ;;
       Return None)
    (fun e =>
       logger ERROR ("Error determining content type: " ++ exn_str e) ;;
       Return None).

Definition request_asst_response (self : loc) (thread_id : string) : coro unit :=
  c <- getattr "client" client self ;;
  try_except
    (logger INFO
       ("Requesting assistant response for thread " ++ thread_id
        ++ " and assistant " ++ ASSISTANT_ID cfg) ;;
     c <- getattr "client" client self ;;
     with_ (await (RunsStream thread_id (ASSISTANT_ID cfg)))
           (fun _ => await StreamClose)
           (fun stream => await StreamUntilDone))
    (fun e =>
       logger ERROR ("Error streaming assistant response: " ++ exn_str e)).

End OpenAIClient.

(** ** The request methods, as one family *)

Inductive method : Type -> Type :=
| CreateThread (user_id : Z) : method (option string)
| PostMessage (thread_id : string) (message : GLMessage) : method bool
| DescribeImage (base64_str : string) : method string
| SummarizeText (description : string) : method string
| SummarizeLink (url : string) : method string
| ClassifyContentType (OAI_messages : loc) : method (option string)
| RequestAssistantResponse (thread_id : string) : method unit.

Definition invoke (cfg : config) (self : loc) {T : Type} (m : method T) : coro T :=
  match m with
  | CreateThread user_id => create_asst_thread self user_id
  | PostMessage thread_id message => add_to_asst_thread self thread_id message
  | DescribeImage base64_str => image_describer self base64_str
  | SummarizeText description => text_summarizer self description
  | SummarizeLink url => link_summarizer self url
  | ClassifyContentType OAI_messages => determine_content_type self OAI_messages
  | RequestAssistantResponse thread_id => request_asst_response cfg self thread_id
  end.

(** What each method returns from its [except] clause. *)
Definition sentinel {T : Type} (m : method T) : T :=
  match m with
  | CreateThread _ => None
  | PostMessage _ _ => false
  | DescribeImage _ => "No description available"
  | SummarizeText _ => "No summary available"
  | SummarizeLink _ => "No summary available"
  | ClassifyContentType _ => None
  | RequestAssistantResponse _ => tt
  end.

(** Every public operation of the class, result dropped. *)
Inductive operation : Type :=
| OpNew
| OpAsyncInit
| OpCreate
| OpGetInstance
| OpRequest (T : Type) (m : method T).

Definition perform (cfg : config) (self : loc) (op : operation) : coro unit :=
  match op with
  | OpNew => __new__ ;; Return tt
  | OpAsyncInit => async_init cfg self
  | OpCreate => create cfg ;; Return tt
  | OpGetInstance => get_instance ;; Return tt
  | OpRequest m => invoke cfg self m ;; Return tt
  end.

(** ** Predicates on worlds *)

Definition is_some {T : Type} (o : option T) : bool :=
  match o with Some _ => true | None => false end.

(** All attributes [async_init] assigns are there and the flag is set. *)
Definition fully_set (o : instance) : bool :=
  _initialized o && is_some (client o) && is_some (assistant o)
  && is_some (chain_of_thought_model_id o) && is_some (chain_of_thought_temp o)
  && is_some (message_model_id o) && is_some (message_model_temp o)
  && is_some (image_model_id o) && is_some (image_model_temp o).

(** [self] is a client whose initialization has completed. *)
Definition initialized (w : world) (self : loc) : bool :=
  match nth_error (objects w) self with
  | Some o => fully_set o
  | None => false
  end.

(** Some initializer call has completed: the singleton exists and its flag
    is set. *)
Definition init_completed (w : world) : bool :=
  match cls_instance w with
  | Some l =>
      match nth_error (objects w) l with
      | Some o => _initialized o
      | None => false
      end
  | None => false
  end.

(** What holds between two operations: the class lock is free and
    [_instance], when set, is the address of an object. *)
Definition valid (w : world) : bool :=
  negb (cls_lock w)
  && match cls_instance w with
     | Some l => is_some (nth_error (objects w) l)
     | None => true
     end.

(** The three (model id, temperature) pairs of the object at [self]. *)
Definition model_configurations (w : world) (self : loc)
  : option ((option string * option float)
            * (option string * option float)
            * (option string * option float)) :=
  match nth_error (objects w) self with
  | Some o =>
      Some ((chain_of_thought_model_id o, chain_of_thought_temp o),
            (message_model_id o, message_model_temp o),
            (image_model_id o, image_model_temp o))
  | None => None
  end.

(** The remote side fails only with instances of [Exception] (connection,
    timeout and status errors), never with an interpreter signal such as a
    cancellation. *)
Definition fails_with_Exception (net : remote) : Prop :=
  forall (n : nat) (B : Type) (r : request B) (e : exn),
    net n B r = Failed e -> is_Exception e = true.

Definition count_retrieve (cs : list call) : nat :=
  List.length (filter is_retrieve cs).

(** ** Sample data *)

Module Sample.

Definition cfg : config :=
  mkConfig "sk-test" "gpt-cot" "gpt-msg" "gpt-img"
    0.25%float 0.75%float 0.5%float "asst_1".

(** A remote side that answers every call; a chat completion has the
    choices [cs]. *)
Definition replying (cs : list choice) : remote :=
  fun _ B r =>
    match r in request T return reply T with
    | AssistantsRetrieve i => Replied (mkAssistant i)
    | ThreadsCreate => Replied (mkThread "thread_1")
    | MessagesCreate _ _ _ => Replied tt
    | ChatCompletionsCreate _ _ _ _ => Replied (mkCompletion cs)
    | RunsStream _ _ => Replied tt
    | StreamUntilDone => Replied tt
    | StreamClose => Replied tt
    end.

(** The same, with the one choice [text]. *)
Definition answers (text : string) : remote := replying [mkChoice text].

(** A remote side on which every call fails with [e]. *)
Definition down (e : exn) : remote := fun _ B r => Failed e.

Definition timeout : exn := mkExn APIError "Request timed out.".

(** The world after one [create()] in a new process. *)
Definition created : world :=
  Eval vm_compute in snd (run (answers "ok") (create cfg) fresh_world).

(** The same, with one list object of a caller at address 0. *)
Definition ready : world :=
  Eval vm_compute in
    mkWorld (cls_instance created) (cls_lock created) (objects created)
      [[mkMsg "user" (Text "show me a cat")]]
      (async_locks created) (logs created) (wire created).

Definition hello : GLMessage := mkGLMessage "user" "hello" "user: hello".

(** The world after [OpenAIClient()] alone in a new process: the instance
    exists and nothing of it is initialized; one list object of a caller at
    address 0. *)
Definition constructed : world :=
  Eval vm_compute in
    let w := snd (run (answers "ok") __new__ fresh_world) in
    mkWorld (cls_instance w) (cls_lock w) (objects w)
      [[mkMsg "user" (Text "show me a cat")]]
      (async_locks w) (logs w) (wire w).

End Sample.

Unset Implicit Arguments.

(** ** Vocabulary of the properties *)

(** What follows a coroutine that did not return is skipped. *)
Definition and_then {A B : Type} (r : outcome A * world)
    (k : A -> world -> outcome B * world) : outcome B * world :=
  match r with
  | (Returned a, w) => k a w
  | (Raised e, w) => (Raised e, w)
  | (Deadlock, w) => (Deadlock, w)
  end.

(** [c] never changes the part [f] of the world. *)
Definition preserves {X A : Type} (f : world -> X) (c : coro A) : Prop :=
  forall (net : remote) (w : world), f (snd (run net c w)) = f w.

(** The [n]-th call [c] failed on [net]. *)
Definition failed_at (net : remote) (n : nat) (c : call) : bool :=
match c with
| @Call B r => match net n B r with Failed _ => true | Replied _ => false end
end.

Fixpoint any_failed (net : remote) (n : nat) (cs : list call) : bool :=
match cs with
| [] => false
| c :: cs' => failed_at net n c || any_failed net (S n) cs'
end.

(** One of the calls issued between [w] and [w'] failed. *)
Definition call_failed (net : remote) (w w' : world) : bool :=
any_failed net (List.length (wire w)) (skipn (List.length (wire w)) (wire w')).

(** The list argument of a method is a list object of the world. *)
Definition arguments_exist (w : world) {T : Type} (m : method T) : bool :=
match m with
| ClassifyContentType OAI_messages => is_some (nth_error (pylists w) OAI_messages)
| _ => true
end.

(** The log grew, and its last record is at level ERROR. *)
Definition error_logged (w w' : world) : Prop :=
exists (pre : list log_record) (text : string),
  logs w' = (logs w ++ pre ++ [mkLog ERROR text])%list.

(** The object [async_init] leaves behind: every attribute assigned, the
    assistant being [a] ([None] when the retrieval failed). *)
Definition configured (cfg : config) (a : option assistant_obj) : instance :=
mkInstance true (Some (mkClient (OPENAI_API_KEY cfg))) (Some a)
  (Some (COT_MODEL_ID cfg)) (Some (COT_MODEL_TEMP cfg))
  (Some (MSG_MODEL_ID cfg)) (Some (MSG_MODEL_TEMP cfg))
  (Some (IMG_MODEL_ID cfg)) (Some (IMG_MODEL_TEMP cfg)).

(** The world a first [async_init] leaves: the object at [self] replaced,
    one more (free) asyncio lock, and what was logged and sent. *)
Definition after_init (w : world) (self : loc) (o : instance)
    (log : list log_record) (r : request assistant_obj) : world :=
mkWorld (cls_instance w) (cls_lock w) (update self o (objects w)) (pylists w)
  (async_locks w ++ [false])%list (logs w ++ log)%list (wire w ++ [Call r])%list.

(** The [assistant] attribute of the object at [self]. *)
Definition assistant_of (w : world) (self : loc) : option (option assistant_obj) :=
match nth_error (objects w) self with
| Some o => assistant o
| None => None
end.

(** The event that lets task [i] take its first turn; a task that has not
    run yet awaits no reply, so the reply function is not consulted. *)
Definition start (i : nat) : event := mkEvent i (Sample.down Sample.timeout 0).

(** The methods whose whole body is inside [try]. *)
Definition guarded {T : Type} (m : method T) : bool :=
match m with
| RequestAssistantResponse _ => false
| _ => true
end.

(** [AttributeError] for the attribute [name] of a client. *)
Definition no_attribute (name : string) : exn :=
mkExn AttributeError ("'OpenAIClient' object has no attribute '" ++ name ++ "'").

(** [c] run [n] times, one call after the other: the outcomes in order, and
    the world after the last. *)
Fixpoint run_times {A : Type} (net : remote) (c : coro A) (n : nat) (w : world)
  : list (outcome A) * world :=
match n with
| O => ([], w)
| S n' =>
    let (o, w1) := run net c w in
    let (os, w2) := run_times net c n' w1 in
    (o :: os, w2)
end.

(** No asyncio lock of the world is held. *)
Definition locks_free (w : world) : bool :=
negb (cls_lock w) && forallb negb (async_locks w).

(** ** Tasks under interference *)

(** What a coroutine does when other tasks run while it is suspended.  [P]
    is what holds of the world whenever a task is suspended or over, [G]
    what every turn of a task guarantees between the world it found and the
    world it leaves.  [safe c w0 w] reads: [c], in a turn that started in
    [w0] and has reached [w], never waits for a lock, is suspended only in
    [expected] calls with [P] and [G] established, resumes well from every
    world that the other tasks may have made of it, and ends in a [good]
    outcome. *)
Section Interference.

Variable A : Type.
Variable P : world -> Prop.
Variable G : world -> world -> Prop.
Variable good : outcome A -> Prop.
Variable expected : call -> Prop.
Variable initial : coro A -> Prop.

Fixpoint safe (c : coro A) (w0 w : world) : Prop :=
  match c with
  | Return a => P w /\ G w0 w /\ good (Returned a)
  | Raise e => P w /\ G w0 w /\ good (Raised e)
  | Get k => safe (k w) w0 w
  | Put w' k => safe k w0 w'
  | Acquire l k => lock_held w l = false /\ safe k w0 (set_lock l true w)
  | Await r k =>
      P (issue r w) /\ G w0 (issue r w) /\ expected (Call r)
      /\ forall x w', P w' -> G (issue r w) w' -> safe (k x) w' w'
  end.

(** A task of the loop, in the world [w]: one of the [initial] coroutines
    that has not run yet, a task suspended in an expected call that resumes
    well, or a task that ended well. *)
Definition task_safe (t : task A) (w : world) : Prop :=
  match t with
  | Ready c => initial c
  | Pending r k =>
      expected (Call r)
      /\ exists ws, G ws w /\ forall x w', P w' -> G ws w' -> safe (k x) w' w'
  | Over o => good o
  end.

End Interference.

(** The singleton in every world the tasks can reach: the class lock is
    free; there is no client object and [_instance] is [None], or there is
    one, at address 0, and [_instance] is that; its [client], once assigned,
    is the handle for the configured key, and once its flag is set the
    object is as [async_init] completes it. *)
Definition singleton (cfg : config) (w : world) : Prop :=
cls_lock w = false
/\ match cls_instance w, objects w with
   | None, [] => True
   | Some O, [o] =>
       (client o = None \/ client o = Some (mkClient (OPENAI_API_KEY cfg)))
       /\ (_initialized o = true -> exists a, o = configured cfg a)
   | _, _ => False
   end.

(** What no turn undoes: the singleton stays the singleton, its [client]
    stays assigned, its flag stays set. *)
Definition progress (w w' : world) : Prop :=
(forall l, cls_instance w = Some l -> cls_instance w' = Some l)
/\ (forall o, objects w = [o] ->
      exists o', objects w' = [o']
                 /\ (forall c, client o = Some c -> client o' = Some c)
                 /\ (_initialized o = true -> _initialized o' = true)).

(** How a [create()] or [get_instance()] task may end: with the singleton,
    with the not-ready error, or with the cancellation of its retrieval. *)
Definition ends_well (o : outcome (option loc)) : Prop :=
match o with
| Returned r => r = Some 0
| Raised e => e = not_ready \/ is_Exception e = false
| Deadlock => False
end.

Definition is_retrieval (cfg : config) (c : call) : Prop :=
c = Call (AssistantsRetrieve (ASSISTANT_ID cfg)).

(** The tasks at the start: calls of [create()] and of [get_instance()]. *)
Definition accessor (cfg : config) (c : coro (option loc)) : Prop :=
c = create cfg \/ c = get_instance.

(** * Properties *)

(** ** Equations of [run] *)

Section RunEquations.

Variable net : remote.

Lemma run_bind (A B : Type) (c : coro A) (f : A -> coro B) (w : world) :
  run net (bind c f) w = and_then (run net c w) (fun a w' => run net (f a) w').
Proof.
  revert w; induction c as [a|e|k IH|w' k IH|l k IH|T r k IH]; intro w; simpl; auto.
  destruct (lock_held w l); auto.
Qed.

Lemma run_try_except (A : Type) (c : coro A) (h : exn -> coro A) (w : world) :
  run net (try_except c h) w =
  match run net c w with
  | (Raised e, w') => if is_Exception e then run net (h e) w' else (Raised e, w')
  | r => r
  end.
Proof.
  revert w; induction c as [a|e|k IH|w' k IH|l k IH|T r k IH]; intro w; simpl; auto.
  - destruct (is_Exception e); reflexivity.
  - destruct (lock_held w l); auto.
Qed.

Lemma run_ensuring (A : Type) (c : coro A) (final : coro unit) (w : world) :
  run net (ensuring c final) w =
  match run net c w with
  | (Returned a, w') => and_then (run net final w') (fun _ w2 => (Returned a, w2))
  | (Raised e, w') => and_then (run net final w') (fun _ w2 => (Raised e, w2))
  | (Deadlock, w') => (Deadlock, w')
  end.
Proof.
  revert w; induction c as [a|e|k IH|w' k IH|l k IH|T r k IH]; intro w; simpl; auto.
  - rewrite run_bind; reflexivity.
  - rewrite run_bind; reflexivity.
  - destruct (lock_held w l); auto.
Qed.

Lemma run_logger (lv : level) (text : string) (w : world) :
  run net (logger lv text) w
  = (Returned tt, set_logs (logs w ++ [mkLog lv text])%list w).
Proof. reflexivity. Qed.

Lemma run_await (B : Type) (r : request B) (w : world) :
  run net (await r) w
  = (match net (List.length (wire w)) B r with
     | Replied v => Returned v
     | Failed e => Raised e
     end, issue r w).
Proof. simpl. destruct (net _ B r); reflexivity. Qed.

Lemma run_deref (self : loc) (o : instance) (w : world) :
  nth_error (objects w) self = Some o ->
  run net (deref self) w = (Returned o, w).
Proof. intro H; simpl; rewrite H; reflexivity. Qed.

Lemma run_getattr (T : Type) (name : string) (field : instance -> option T)
    (self : loc) (o : instance) (v : T) (w : world) :
  nth_error (objects w) self = Some o -> field o = Some v ->
  run net (getattr name field self) w = (Returned v, w).
Proof. intros H Hf; unfold getattr; simpl; rewrite H; simpl; rewrite Hf; reflexivity. Qed.

Lemma run_setattr (f : instance -> instance) (self : loc) (o : instance) (w : world) :
  nth_error (objects w) self = Some o ->
  run net (setattr f self) w
  = (Returned tt, set_objects (update self (f o) (objects w)) w).
Proof. intro H; unfold setattr; simpl; rewrite H; reflexivity. Qed.

Lemma run_unpack (ref : loc) (xs : list oai_message) (w : world) :
  nth_error (pylists w) ref = Some xs ->
  run net (unpack ref) w = (Returned xs, w).
Proof. intro H; simpl; rewrite H; reflexivity. Qed.

End RunEquations.

Lemma nth_error_update (A : Type) (xs : list A) (i : nat) (x y : A) :
  nth_error xs i = Some y -> nth_error (update i x xs) i = Some x.
Proof.
  revert i; induction xs as [|h t IH]; intros [|i] H; simpl in *;
    try discriminate; auto.
Qed.

Lemma update_update (A : Type) (xs : list A) (i : nat) (x y : A) :
  update i x (update i y xs) = update i x xs.
Proof.
  revert i; induction xs as [|h t IH]; intros [|i]; simpl; auto.
  now rewrite IH.
Qed.

Lemma nth_append_new (xs : list bool) :
  nth (List.length xs) (xs ++ [false])%list false = false.
Proof. induction xs; simpl; auto. Qed.

Lemma update_append_new (xs : list bool) (a b : bool) :
  update (List.length xs) b (xs ++ [a])%list = (xs ++ [b])%list.
Proof. induction xs; simpl; auto. now rewrite IHxs. Qed.

(** ** Frame: what a coroutine leaves alone *)

Section Frame.

Variables (X : Type) (f : world -> X).

(** [f] reads neither the log, nor the wire, nor the locks. *)
Hypothesis f_logs : forall v w, f (set_logs v w) = f w.
Hypothesis f_wire : forall v w, f (set_wire v w) = f w.
Hypothesis f_async_locks : forall v w, f (set_async_locks v w) = f w.
Hypothesis f_cls_lock : forall v w, f (set_cls_lock v w) = f w.

Lemma preserves_return (A : Type) (a : A) : preserves f (Return a).
Proof. intros net w; reflexivity. Qed.

Lemma preserves_raise (A : Type) (e : exn) : preserves f (@Raise A e).
Proof. intros net w; reflexivity. Qed.

Lemma preserves_get (A : Type) (k : world -> coro A) :
  (forall w, preserves f (k w)) -> preserves f (Get k).
Proof. intros H net w; simpl; apply H. Qed.

Lemma preserves_bind (A B : Type) (c : coro A) (k : A -> coro B) :
  preserves f c -> (forall a, preserves f (k a)) -> preserves f (bind c k).
Proof.
  intros Hc Hk net w; rewrite run_bind.
  specialize (Hc net w); destruct (run net c w) as [[a|e|] w']; simpl in *; auto.
  rewrite Hk; auto.
Qed.

Lemma preserves_try_except (A : Type) (c : coro A) (h : exn -> coro A) :
  preserves f c -> (forall e, preserves f (h e)) -> preserves f (try_except c h).
Proof.
  intros Hc Hh net w; rewrite run_try_except.
  specialize (Hc net w); destruct (run net c w) as [[a|e|] w']; simpl in *; auto.
  destruct (is_Exception e); simpl; auto. rewrite Hh; auto.
Qed.

Lemma preserves_ensuring (A : Type) (c : coro A) (final : coro unit) :
  preserves f c -> preserves f final -> preserves f (ensuring c final).
Proof.
  intros Hc Hf net w; rewrite run_ensuring.
  specialize (Hc net w); destruct (run net c w) as [[a|e|] w']; simpl in *; auto.
  - specialize (Hf net w'); destruct (run net final w') as [[u|e'|] w2];
      simpl in *; congruence.
  - specialize (Hf net w'); destruct (run net final w') as [[u|e'|] w2];
      simpl in *; congruence.
Qed.

Lemma preserves_with (R A : Type) (enter : coro R) (leave : R -> coro unit)
    (body : R -> coro A) :
  preserves f enter -> (forall r, preserves f (leave r)) ->
  (forall r, preserves f (body r)) -> preserves f (with_ enter leave body).
Proof.
  intros; unfold with_; apply preserves_bind; auto.
  intro r; apply preserves_ensuring; auto.
Qed.

Lemma preserves_logger (lv : level) (text : string) : preserves f (logger lv text).
Proof. intros net w; simpl; apply f_logs. Qed.

Lemma preserves_await (B : Type) (r : request B) : preserves f (await r).
Proof.
  intros net w; rewrite run_await; simpl; unfold issue; apply f_wire.
Qed.

Lemma preserves_deref (self : loc) : preserves f (deref self).
Proof. intros net w; simpl; destruct (nth_error (objects w) self); reflexivity. Qed.

Lemma preserves_getattr (T : Type) (name : string) (field : instance -> option T)
    (self : loc) :
  preserves f (getattr name field self).
Proof.
  unfold getattr; apply preserves_bind; [apply preserves_deref|].
  intro o; destruct (field o); [apply preserves_return|apply preserves_raise].
Qed.

Lemma preserves_first (A : Type) (xs : list A) : preserves f (first xs).
Proof. destruct xs; [apply preserves_raise|apply preserves_return]. Qed.

Lemma preserves_unpack (ref : loc) : preserves f (unpack ref).
Proof. intros net w; simpl; destruct (nth_error (pylists w) ref); reflexivity. Qed.

Create HintDb frame.

Hint Resolve preserves_return preserves_raise preserves_logger preserves_await
  preserves_deref preserves_getattr preserves_first preserves_unpack : frame.

Ltac frame :=
  repeat first
    [ progress auto with frame
    | apply preserves_try_except
    | apply preserves_with
    | apply preserves_bind
    | match goal with |- forall _, _ => intro end
    | match goal with
      | |- preserves _ (match ?x with _ => _ end) => destruct x
      | |- preserves _ (if ?x then _ else _) => destruct x
      end ].

(** No request method changes [f]. *)
Lemma invoke_preserves (cfg : config) (self : loc) (T : Type) (m : method T) :
  preserves f (invoke cfg self m).
Proof.
  destruct m; simpl;
    [ unfold create_asst_thread | unfold add_to_asst_thread
    | unfold image_describer | unfold text_summarizer | unfold link_summarizer
    | unfold determine_content_type | unfold request_asst_response ];
    frame.
Qed.

End Frame.

(** ** Initialized clients *)

Lemma initialized_inv (w : world) (self : loc) :
  initialized w self = true ->
  exists o c cm ct mm mt im it,
    nth_error (objects w) self = Some o
    /\ _initialized o = true /\ client o = Some c
    /\ chain_of_thought_model_id o = Some cm /\ chain_of_thought_temp o = Some ct
    /\ message_model_id o = Some mm /\ message_model_temp o = Some mt
    /\ image_model_id o = Some im /\ image_model_temp o = Some it.
Proof.
  unfold initialized, fully_set.
  destruct (nth_error (objects w) self) as [o|]; [|discriminate].
  destruct o as [i [c|] [a|] [cm|] [ct|] [mm|] [mt|] [im|] [it|]]; simpl;
    rewrite ?andb_false_r; try discriminate.
  destruct i; [|discriminate]. intros _.
  exists (mkInstance true (Some c) (Some a) (Some cm) (Some ct) (Some mm)
            (Some mt) (Some im) (Some it)), c, cm, ct, mm, mt, im, it.
  repeat split.
Qed.

(** Symbolic execution of [run] on a method body: push [run] through the
    combinators and read attributes of the object at [self]. *)
Ltac exec Hobj :=
  repeat first
    [ rewrite run_try_except
    | rewrite run_ensuring
    | rewrite run_bind
    | rewrite run_logger
    | rewrite run_await
    | erewrite run_getattr by (first [eassumption | simpl; eassumption])
    | rewrite (run_deref _ _ _ _ Hobj)
    | progress cbn [run]
    | erewrite run_unpack by (first [eassumption | simpl; eassumption])
    | match goal with
      | H : is_Exception ?e = true |- context [is_Exception ?e] => rewrite H
      end
    | progress cbv beta iota delta [and_then] ].

Ltac initialized_object H o Ho :=
  let c := fresh "c" in
  let cm := fresh "cm" in
  let ct := fresh "ct" in
  let mm := fresh "mm" in
  let mt := fresh "mt" in
  let im := fresh "im" in
  let it := fresh "it" in
  destruct (initialized_inv _ _ H)
    as (o & c & cm & ct & mm & mt & im & it & Ho & ? & ? & ? & ? & ? & ? & ? & ?).

Lemma wire_issue (B : Type) (r : request B) (w : world) :
  List.length (wire (issue r w)) = S (List.length (wire w)).
Proof. unfold issue; simpl; rewrite length_app; simpl; lia. Qed.

Lemma skipn_new (A : Type) (xs ys : list A) :
  skipn (List.length xs) (xs ++ ys)%list = ys.
Proof. induction xs; simpl; auto. Qed.

(** ** classifyContentType: [determine_content_type] *)

(** C7.  For every list object of the caller, [determine_content_type] on an
    initialized client issues exactly one chat-completion request, and its
    message list is the fixed system instruction, then the caller's
    messages in their order, then the fixed final user instruction. *)
Theorem determine_content_type_sends
    (net : remote) (w : world) (self OAI_messages : loc) (msgs : list oai_message) :
  initialized w self = true ->
  nth_error (pylists w) OAI_messages = Some msgs ->
  exists (o : instance) (model : string) (temperature : float),
    nth_error (objects w) self = Some o
    /\ chain_of_thought_model_id o = Some model
    /\ chain_of_thought_temp o = Some temperature
    /\ wire (snd (run net (determine_content_type self OAI_messages) w))
       = (wire w
          ++ [Call (ChatCompletionsCreate model
                      (mkMsg "system" (Text content_type_system_prompt)
                       :: msgs
                       ++ [mkMsg "user" (Text content_type_question)])
                      10 temperature)])%list.
Proof.
  intros Hi Hl. initialized_object Hi o Ho.
  exists o, cm, ct. repeat (split; [assumption|]).
  unfold determine_content_type. exec Ho.
  destruct (net _ completion _) as [[[|ch chs]]|e]; cbn [first choices]; exec Ho.
  - reflexivity.
  - cbn [run]. destruct (Text.contains _ _); exec Ho; reflexivity.
  - destruct (is_Exception e); exec Ho; reflexivity.
Qed.

Lemma determine_content_type_sends_witness :
  exists (o : instance) (model : string) (temperature : float),
    nth_error (objects Sample.ready) 0 = Some o
    /\ chain_of_thought_model_id o = Some model
    /\ chain_of_thought_temp o = Some temperature
    /\ wire (snd (run (Sample.answers "GIF") (determine_content_type 0 0)
                    Sample.ready))
       = (wire Sample.ready
          ++ [Call (ChatCompletionsCreate model
                      (mkMsg "system" (Text content_type_system_prompt)
                       :: [mkMsg "user" (Text "show me a cat")]
                       ++ [mkMsg "user" (Text content_type_question)])
                      10 temperature)])%list.
Proof.
  apply (determine_content_type_sends (Sample.answers "GIF") Sample.ready 0 0
           [mkMsg "user" (Text "show me a cat")]); reflexivity.
Defined.

(** C3.  When the completion has a first choice with text [text],
    [determine_content_type] strips and lower-cases it; a result among
    "message", "gif", "youtube", "website" is returned, and for any other
    the method logs the value at level ERROR and returns [None]. *)
Theorem determine_content_type_validates
    (net : remote) (w : world) (self OAI_messages : loc)
    (msgs : list oai_message) (text : string) (rest : list choice) :
  initialized w self = true ->
  nth_error (pylists w) OAI_messages = Some msgs ->
  (forall model messages max_tokens temperature,
     net (List.length (wire w)) completion
       (ChatCompletionsCreate model messages max_tokens temperature)
     = Replied (mkCompletion (mkChoice text :: rest))) ->
  let content_type := Text.lower (Text.strip text) in
  let r := run net (determine_content_type self OAI_messages) w in
  if Text.contains content_type ["message"; "gif"; "youtube"; "website"]
  then fst r = Returned (Some content_type) /\ logs (snd r) = logs w
  else fst r = Returned None
       /\ logs (snd r)
          = (logs w ++ [mkLog ERROR ("Invalid content type '" ++ content_type)])%list.
Proof.
  intros Hi Hl Hn content_type r. subst r content_type.
  initialized_object Hi o Ho.
  unfold determine_content_type. exec Ho. rewrite Hn. exec Ho.
  cbn [first choices choice_text run].
  destruct (Text.contains _ _); exec Ho; split; reflexivity.
Qed.

Lemma determine_content_type_validates_witness :
  fst (run (Sample.answers "GIF") (determine_content_type 0 0) Sample.ready)
  = Returned (Some "gif")
  /\ logs (snd (run (Sample.answers "GIF") (determine_content_type 0 0)
                  Sample.ready))
     = logs Sample.ready.
Proof.
  apply (determine_content_type_validates (Sample.answers "GIF") Sample.ready 0 0
           [mkMsg "user" (Text "show me a cat")] "GIF" []); reflexivity.
Defined.

Example determine_content_type_maybe :
  let r := run (Sample.answers "Maybe?") (determine_content_type 0 0) Sample.ready in
  fst r = Returned None
  /\ logs (snd r)
     = (logs Sample.ready ++ [mkLog ERROR "Invalid content type 'maybe?"])%list.
Proof. split; reflexivity. Qed.

(** C10.  [determine_content_type] never changes a list object of the
    caller: on every world, for every client, argument and remote side, the
    list objects after the call are the list objects before it, whether the
    call returns a word, returns [None] or raises. *)
Theorem determine_content_type_leaves_lists
    (net : remote) (w : world) (self OAI_messages : loc) :
  pylists (snd (run net (determine_content_type self OAI_messages) w)) = pylists w.
Proof.
  apply (invoke_preserves _ pylists) with (cfg := Sample.cfg) (self := self)
    (m := ClassifyContentType OAI_messages); reflexivity.
Qed.

(** ** postMessage: [add_to_asst_thread] *)

(** C6.  On an initialized client, [add_to_asst_thread] returns (it does not
    raise): [True] when the message-create call is answered and [False] when
    it fails; either way the singleton reference, the client objects (flag,
    assistant, model configurations), the callers' lists and the locks are
    what they were. *)
Theorem add_to_asst_thread_contract
    (net : remote) (w : world) (self : loc) (thread_id : string) (message : GLMessage) :
  initialized w self = true ->
  fails_with_Exception net ->
  let r := run net (add_to_asst_thread self thread_id message) w in
  fst r
  = Returned
      match net (List.length (wire w)) unit
              (MessagesCreate thread_id (gl_content message) (gl_role message))
      with
      | Replied _ => true
      | Failed _ => false
      end
  /\ cls_instance (snd r) = cls_instance w
  /\ objects (snd r) = objects w
  /\ pylists (snd r) = pylists w
  /\ async_locks (snd r) = async_locks w
  /\ cls_lock (snd r) = cls_lock w.
Proof.
  intros Hi Hex r. subst r. initialized_object Hi o Ho.
  unfold add_to_asst_thread. exec Ho.
  destruct (net _ unit _) as [[]|e] eqn:E.
  - exec Ho. repeat split.
  - rewrite (Hex _ _ _ _ E). exec Ho. repeat split.
Qed.

Lemma fails_with_Exception_down (e : exn) :
  is_Exception e = true -> fails_with_Exception (Sample.down e).
Proof. intros H n B r e' E; injection E as <-; exact H. Qed.

Lemma fails_with_Exception_answers (text : string) :
  fails_with_Exception (Sample.answers text).
Proof. intros n B r e E; destruct r; discriminate E. Qed.

Lemma add_to_asst_thread_contract_witness :
  let r := run (Sample.down Sample.timeout)
             (add_to_asst_thread 0 "thread_1" Sample.hello) Sample.ready in
  fst r = Returned false
  /\ cls_instance (snd r) = cls_instance Sample.ready
  /\ objects (snd r) = objects Sample.ready
  /\ pylists (snd r) = pylists Sample.ready
  /\ async_locks (snd r) = async_locks Sample.ready
  /\ cls_lock (snd r) = cls_lock Sample.ready.
Proof.
  apply (add_to_asst_thread_contract (Sample.down Sample.timeout) Sample.ready 0
           "thread_1" Sample.hello);
    [reflexivity | apply fails_with_Exception_down; reflexivity].
Defined.

Example add_to_asst_thread_answered :
  fst (run (Sample.answers "ok")
         (add_to_asst_thread 0 "thread_1" Sample.hello) Sample.ready)
  = Returned true.
Proof. reflexivity. Qed.

(** ** describeImage: [image_describer] *)

(** X4.  What [image_describer] returns on an initialized client: the text of the
    first choice as it came, or the fixed string when there is no choice or
    the call failed. *)
Lemma image_describer_returns
    (net : remote) (w : world) (self : loc) (base64_str : string) :
  initialized w self = true ->
  fails_with_Exception net ->
  exists sent : request completion,
    fst (run net (image_describer self base64_str) w)
    = Returned
        match net (List.length (wire w)) completion sent with
        | Replied response =>
            match choices response with
            | [] => "No description available"
            | ch :: _ => choice_text ch
            end
        | Failed _ => "No description available"
        end.
Proof.
  intros Hi Hex. initialized_object Hi o Ho.
  unfold image_describer. exec Ho.
  match goal with |- context [net _ completion ?r] => exists r end.
  destruct (net _ completion _) as [[[|ch chs]]|e] eqn:E; exec Ho.
  - reflexivity.
  - reflexivity.
  - rewrite (Hex _ _ _ _ E). exec Ho. reflexivity.
Qed.

(** C2, at an input where the code departs from it.  The completion has one
    choice whose text is "A red bicycle." followed by a newline:
    [image_describer] returns the text with the newline, which is not its
    [strip()]; [text_summarizer] and [link_summarizer], given the same
    completion, return the stripped text. *)
Theorem image_describer_keeps_whitespace :
  let text := "A red bicycle." ++ nl in
  let net := Sample.answers text in
  fst (run net (image_describer 0 "aGk=") Sample.ready) = Returned text
  /\ Text.strip text = "A red bicycle."
  /\ text <> Text.strip text
  /\ fst (run net (text_summarizer 0 "a bicycle") Sample.ready)
     = Returned "A red bicycle."
  /\ fst (run net (link_summarizer 0 "https://example.org/bike") Sample.ready)
     = Returned "A red bicycle.".
Proof. repeat split; try reflexivity. discriminate. Qed.

(** The two cases of C2 the specification spells out hold on the code. *)
Example image_describer_red_bicycle :
  fst (run (Sample.answers "A red bicycle.") (image_describer 0 "aGk=") Sample.ready)
  = Returned "A red bicycle.".
Proof. reflexivity. Qed.

Example image_describer_no_choices :
  fst (run (Sample.replying []) (image_describer 0 "aGk=") Sample.ready)
  = Returned "No description available".
Proof. reflexivity. Qed.

Ltac reply net Hex :=
cbn [wire set_logs set_objects issue set_wire]; rewrite ?last_length;
match goal with
| |- context [net ?n ?B ?r] =>
    let E := fresh "E" in
    let e := fresh "e" in
    destruct (net n B r) as [?|e] eqn:E;
    [| pose proof (Hex _ _ _ _ E) ]
end.

Ltac settle :=
split; [reflexivity|];
unfold call_failed, error_logged; cbn [snd fst wire issue set_wire set_logs logs];
rewrite <- ?app_assoc; rewrite ?skipn_new; cbn [app any_failed failed_at orb];
repeat match goal with E : _ = _ |- _ => rewrite E end; cbn [orb];
first
  [ intro; discriminate
  | intros _; split;
    [ reflexivity
    | first [ eexists [], _; reflexivity | eexists [_], _; reflexivity
            | eexists [_; _], _; reflexivity ] ] ].

(** C5.  On an initialized client, when the remote side fails only with
    instances of [Exception], every request method returns: nothing is
    raised to the caller.  If a call it issued failed, it returns its
    sentinel ([None], [False], the fixed string, or plain return for
    [request_asst_response]) and the last record it logged is at level
    ERROR. *)
Theorem request_methods_never_raise
    (cfg : config) (T : Type) (m : method T) (net : remote) (w : world) (self : loc) :
  initialized w self = true ->
  arguments_exist w m = true ->
  fails_with_Exception net ->
  exists (v : T) (w' : world),
    run net (invoke cfg self m) w = (Returned v, w')
    /\ (call_failed net w w' = true -> v = sentinel m /\ error_logged w w').
Proof.
  intros Hi Ha Hex. initialized_object Hi o Ho.
  destruct m; cbn [invoke sentinel].
  - unfold create_asst_thread. exec Ho. reply net Hex; exec Ho.
    all: eexists; eexists; settle.
  - unfold add_to_asst_thread. exec Ho. reply net Hex; exec Ho.
    all: eexists; eexists; settle.
  - unfold image_describer. exec Ho. reply net Hex; exec Ho.
    2: eexists; eexists; settle.
    destruct (choices _); exec Ho; eexists; eexists; settle.
  - unfold text_summarizer. exec Ho. reply net Hex; exec Ho.
    2: eexists; eexists; settle.
    destruct (choices _); exec Ho; eexists; eexists; settle.
  - unfold link_summarizer. exec Ho. reply net Hex; exec Ho.
    2: eexists; eexists; settle.
    destruct (choices _); exec Ho; eexists; eexists; settle.
  - cbn [arguments_exist] in Ha.
    destruct (nth_error (pylists w) OAI_messages) as [msgs|] eqn:Hl; [|discriminate].
    unfold determine_content_type. exec Ho. reply net Hex; exec Ho.
    2: eexists; eexists; settle.
    destruct (choices _); cbn [first]; exec Ho.
    + eexists; eexists; settle.
    + destruct (Text.contains _ _); exec Ho; eexists; eexists; settle.
  - unfold request_asst_response, with_. exec Ho. reply net Hex; exec Ho.
    2: eexists; eexists; settle.
    reply net Hex; exec Ho; reply net Hex; exec Ho.
    all: eexists; eexists; settle.
Qed.

Lemma request_methods_never_raise_witness :
  exists (v : option string) (w' : world),
    run (Sample.down Sample.timeout)
      (invoke Sample.cfg 0 (CreateThread 42)) Sample.ready
    = (Returned v, w')
    /\ (call_failed (Sample.down Sample.timeout) Sample.ready w' = true ->
        v = sentinel (CreateThread 42) /\ error_logged Sample.ready w').
Proof.
  apply (request_methods_never_raise Sample.cfg (option string) (CreateThread 42)
           (Sample.down Sample.timeout) Sample.ready 0);
    [reflexivity | reflexivity | apply fails_with_Exception_down; reflexivity].
Defined.

(** [except Exception] does not handle a cancellation of the awaited call:
    it reaches the caller, the client adds no cancellation layer. *)
Example cancellation_propagates :
  fst (run (Sample.down (mkExn CancelledError ""))
         (create_asst_thread 0 42) Sample.ready)
  = Raised (mkExn CancelledError "").
Proof. reflexivity. Qed.

Example create_asst_thread_down :
  fst (run (Sample.down Sample.timeout) (create_asst_thread 0 42) Sample.ready)
  = Returned None.
Proof. reflexivity. Qed.

Example request_asst_response_stream_breaks :
  let net : remote :=
    fun n B r =>
      match r in request T return reply T with
      | StreamUntilDone => Failed Sample.timeout
      | r' => Sample.answers "ok" n r'
      end in
  let r := run net (request_asst_response Sample.cfg 0 "thread_1") Sample.ready in
  fst r = Returned tt
  /\ logs (snd r)
     = (logs Sample.ready
        ++ [mkLog INFO
              "Requesting assistant response for thread thread_1 and assistant asst_1";
            mkLog ERROR
              "Error streaming assistant response: Request timed out."])%list.
Proof. split; reflexivity. Qed.

(** ** The singleton *)

Ltac world :=
cbn [cls_instance cls_lock objects pylists async_locks logs wire
     set_cls_instance set_cls_lock set_objects set_async_locks set_logs set_wire
     issue set_lock lock_held].

Lemma run_new_existing (net : remote) (w : world) (l : loc) :
  cls_instance w = Some l -> run net __new__ w = (Returned (Some l), w).
Proof.
  intro H. unfold __new__. rewrite run_bind. cbn [run]. rewrite H.
  cbn [run and_then]. rewrite H. reflexivity.
Qed.

Lemma run_new_first (net : remote) (w : world) :
  cls_instance w = None -> cls_lock w = false ->
  run net __new__ w
  = (Returned (Some (List.length (objects w))),
     mkWorld (Some (List.length (objects w))) false (objects w ++ [blank])%list
       (pylists w) (async_locks w) (logs w) (wire w)).
Proof.
  intros H L. unfold __new__, with_, acquire, release, modify.
  rewrite run_bind. cbn [run]. rewrite H.
  rewrite run_bind. cbn [run]. world. rewrite L.
  cbn [run and_then]. rewrite run_ensuring. cbn [run]. world. rewrite H.
  cbn [run and_then]. reflexivity.
Qed.

Lemma nth_error_new (A : Type) (xs : list A) (x : A) :
  nth_error (xs ++ [x])%list (List.length xs) = Some x.
Proof. induction xs; simpl; auto. Qed.

Lemma run_async_init_done (cfg : config) (net : remote) (w : world) (self : loc)
    (o : instance) :
  nth_error (objects w) self = Some o -> _initialized o = true ->
  run net (async_init cfg self) w = (Returned tt, w).
Proof.
  intros Ho Hi. unfold async_init. rewrite run_bind, (run_deref _ _ _ _ Ho).
  cbn [and_then]. rewrite Hi. reflexivity.
Qed.

(** Symbolic execution through attribute assignments on the object at
    [self], whose address holds an object by [Hobj]. *)
Ltac assign Hobj :=
repeat first
  [ rewrite run_try_except
  | rewrite run_bind
  | rewrite run_logger
  | rewrite run_await
  | erewrite run_deref
      by (world; first [exact Hobj | eapply nth_error_update; exact Hobj])
  | erewrite run_getattr
      by (world; first [exact Hobj | eapply nth_error_update; exact Hobj | reflexivity])
  | erewrite run_setattr
      by (world; first [exact Hobj | eapply nth_error_update; exact Hobj])
  | match goal with
    | H : is_Exception ?e = _ |- context [is_Exception ?e] => rewrite H
    end
  | progress cbn [and_then run]
  | progress world
  | rewrite update_update ].

Lemma run_async_init_first (cfg : config) (net : remote) (w : world) (self : loc)
    (o : instance) :
  nth_error (objects w) self = Some o -> _initialized o = false ->
  let r := AssistantsRetrieve (ASSISTANT_ID cfg) in
  run net (async_init cfg self) w
  = match net (List.length (wire w)) assistant_obj r with
    | Replied a =>
        (Returned tt,
         after_init w self (configured cfg (Some a))
           [mkLog INFO ("Assistant " ++ ASSISTANT_ID cfg ++ " retrieved successfully.")]
           r)
    | Failed e =>
        if is_Exception e
        then
          (Returned tt,
           after_init w self (configured cfg None)
             [mkLog ERROR
                ("Error retrieving assistant " ++ ASSISTANT_ID cfg ++ ": " ++ exn_str e)]
             r)
        else
          (Raised e,
           after_init w self (with_client (mkClient (OPENAI_API_KEY cfg)) o) [] r)
    end.
Proof.
  intros Ho Hi r. subst r. unfold async_init, with_, acquire, release, modify,
    new_asyncio_Lock.
  rewrite run_bind, (run_deref _ _ _ _ Ho). cbn [and_then]. rewrite Hi. cbn [negb].
  rewrite run_bind. rewrite run_bind. cbn [run and_then]. world.
  rewrite nth_append_new. cbn [run and_then]. rewrite update_append_new.
  rewrite run_ensuring.
  assign Ho. rewrite Hi. cbn [negb]. assign Ho.
  destruct (net _ assistant_obj _) as [a|e]; [|destruct (is_Exception e) eqn:He];
    assign Ho; rewrite update_append_new; unfold after_init, configured;
    rewrite ?app_nil_r; reflexivity.
Qed.

Lemma new_result (net : remote) (w w' : world) (r : option loc) :
  run net __new__ w = (Returned r, w') ->
  exists l, r = Some l /\ cls_instance w' = Some l.
Proof.
  destruct (cls_instance w) as [l|] eqn:H.
  - rewrite (run_new_existing _ _ _ H). intro E; injection E as <- <-. eauto.
  - destruct (cls_lock w) eqn:L.
    + unfold __new__, with_, acquire. rewrite run_bind. cbn [run]. rewrite H.
      rewrite run_bind. cbn [run]. world. rewrite L. cbn [and_then]. discriminate.
    + rewrite (run_new_first _ _ H L). intro E; injection E as <- <-.
      eexists; split; reflexivity.
Qed.

Lemma async_init_result (cfg : config) (net : remote) (w w' : world) (self : loc) :
  run net (async_init cfg self) w = (Returned tt, w') ->
  cls_instance w' = cls_instance w
  /\ exists o, nth_error (objects w') self = Some o /\ _initialized o = true.
Proof.
  destruct (nth_error (objects w) self) as [o|] eqn:Ho.
  - destruct (_initialized o) eqn:Hi.
    + rewrite (run_async_init_done _ _ _ _ _ Ho Hi). intro E; injection E as <-.
      eauto.
    + rewrite (run_async_init_first _ _ _ _ _ Ho Hi). cbv zeta.
      destruct (net _ assistant_obj _) as [a|e]; [|destruct (is_Exception e)];
        intro E; try discriminate E; injection E as <-; split; try reflexivity;
        eexists; (split; [apply (nth_error_update _ _ _ _ _ Ho)|reflexivity]).
  - unfold async_init. rewrite run_bind. cbn [deref run]. rewrite Ho.
    cbn [dangling run and_then]. discriminate.
Qed.

(** What a [create()] that returned leaves: the singleton, with its flag
    set. *)
Lemma create_result (cfg : config) (net : remote) (w w' : world) (r : option loc) :
  run net (create cfg) w = (Returned r, w') ->
  exists l o,
    r = Some l /\ cls_instance w' = Some l
    /\ nth_error (objects w') l = Some o /\ _initialized o = true.
Proof.
  unfold create, cls. rewrite run_bind.
  destruct (run net __new__ w) as [[r0| |] w0] eqn:N; cbn [and_then];
    try discriminate.
  destruct (new_result _ _ _ _ N) as (l & -> & Hl).
  rewrite run_bind. cbn [on_object].
  destruct (run net (async_init cfg l) w0) as [[[]| |] w1] eqn:A; cbn [and_then run];
    try discriminate.
  intro E; injection E as <- <-.
  destruct (async_init_result _ _ _ _ _ A) as (Hc & o & Ho & Hi).
  exists l, o. rewrite Hc. auto.
Qed.

(** Once the flag of the singleton is set, [create()] changes nothing and
    issues nothing. *)
Lemma create_again (cfg : config) (net : remote) (w : world) (l : loc) (o : instance) :
  cls_instance w = Some l -> nth_error (objects w) l = Some o ->
  _initialized o = true ->
  run net (create cfg) w = (Returned (Some l), w).
Proof.
  intros Hl Ho Hi. unfold create, cls.
  rewrite run_bind, (run_new_existing _ _ _ Hl). cbn [and_then on_object].
  rewrite run_bind, (run_async_init_done _ _ _ _ _ Ho Hi). reflexivity.
Qed.

Lemma get_instance_again (net : remote) (w : world) (l : loc) (o : instance) :
  cls_instance w = Some l -> nth_error (objects w) l = Some o ->
  _initialized o = true ->
  run net get_instance w = (Returned (Some l), w).
Proof.
  intros Hl Ho Hi. unfold get_instance, cls.
  rewrite run_bind, (run_new_existing _ _ _ Hl). cbn [and_then on_object].
  rewrite run_bind, (run_deref _ _ _ _ Ho). cbn [and_then]. rewrite Hi. reflexivity.
Qed.

(** C8.  A second [create()] after one that returned gives back the same
    instance and leaves the whole world as the first call left it: no remote
    call is issued (the wire is unchanged, so no further retrieval), nothing
    is logged, and every attribute of the instance is what the first call
    set. *)
Theorem create_idempotent
    (cfg : config) (net net' : remote) (w0 w1 : world) (r : option loc) :
  run net (create cfg) w0 = (Returned r, w1) ->
  run net' (create cfg) w1 = (Returned r, w1)
  /\ wire (snd (run net' (create cfg) w1)) = wire w1
  /\ objects (snd (run net' (create cfg) w1)) = objects w1.
Proof.
  intro H. destruct (create_result _ _ _ _ _ H) as (l & o & -> & Hl & Ho & Hi).
  rewrite (create_again cfg net' _ _ _ Hl Ho Hi). repeat split.
Qed.

Lemma create_idempotent_witness :
  let w1 := Sample.created in
  run (Sample.down Sample.timeout) (create Sample.cfg) w1 = (Returned (Some 0), w1)
  /\ wire (snd (run (Sample.down Sample.timeout) (create Sample.cfg) w1)) = wire w1
  /\ objects (snd (run (Sample.down Sample.timeout) (create Sample.cfg) w1))
     = objects w1.
Proof.
  exact (create_idempotent Sample.cfg (Sample.answers "ok")
           (Sample.down Sample.timeout) fresh_world Sample.created (Some 0)
           eq_refl).
Defined.

Example create_issues_one_retrieval :
  count_retrieve
    (wire (snd (run (Sample.answers "ok") (create Sample.cfg) fresh_world))) = 1.
Proof. reflexivity. Qed.

(** C4.  Before any initializer call has completed, [get_instance] raises
    the not-ready error; after a [create()] that returned, it returns the
    instance [create()] returned and changes nothing. *)
Theorem get_instance_contract (cfg : config) :
  (forall (net : remote) (w : world),
     valid w = true -> init_completed w = false ->
     exists w', run net get_instance w = (Raised not_ready, w'))
  /\ (forall (net net' : remote) (w0 w1 : world) (r : option loc),
        run net (create cfg) w0 = (Returned r, w1) ->
        run net' get_instance w1 = (Returned r, w1)).
Proof.
  split.
  - intros net w Hv Hn. unfold valid in Hv. unfold init_completed in Hn.
    apply andb_true_iff in Hv as [L Hv]. apply negb_true_iff in L.
    unfold get_instance, cls. rewrite run_bind.
    destruct (cls_instance w) as [l|] eqn:Hl.
    + rewrite (run_new_existing _ _ _ Hl). cbn [and_then on_object].
      destruct (nth_error (objects w) l) as [o|] eqn:Ho; [|discriminate].
      rewrite run_bind, (run_deref _ _ _ _ Ho). cbn [and_then]. rewrite Hn.
      eexists; reflexivity.
    + rewrite (run_new_first _ _ Hl L). cbn [and_then on_object].
      rewrite run_bind. erewrite run_deref by (world; apply nth_error_new).
      cbn [and_then blank _initialized negb run]. eexists; reflexivity.
  - intros net net' w0 w1 r H.
    destruct (create_result _ _ _ _ _ H) as (l & o & -> & Hl & Ho & Hi).
    apply (get_instance_again net' _ _ _ Hl Ho Hi).
Qed.

Lemma get_instance_contract_witness :
  (exists w', run (Sample.answers "ok") get_instance fresh_world
              = (Raised not_ready, w'))
  /\ run (Sample.answers "ok") get_instance Sample.created
     = (Returned (Some 0), Sample.created).
Proof.
  split.
  - exact (proj1 (get_instance_contract Sample.cfg) (Sample.answers "ok")
             fresh_world eq_refl eq_refl).
  - exact (proj2 (get_instance_contract Sample.cfg) (Sample.answers "ok")
             (Sample.answers "ok") fresh_world Sample.created (Some 0) eq_refl).
Defined.

(** X11.  The attributes [create()] assigns are all there afterwards: a client on
    which [create()] returned, in a world where no initializer had completed,
    is [initialized]. *)
Lemma create_initializes (cfg : config) (net : remote) (w w' : world) (r : option loc) :
  valid w = true -> init_completed w = false ->
  run net (create cfg) w = (Returned r, w') ->
  exists l, r = Some l /\ cls_instance w' = Some l /\ initialized w' l = true
            /\ model_configurations w' l
               = Some ((Some (COT_MODEL_ID cfg), Some (COT_MODEL_TEMP cfg)),
                       (Some (MSG_MODEL_ID cfg), Some (MSG_MODEL_TEMP cfg)),
                       (Some (IMG_MODEL_ID cfg), Some (IMG_MODEL_TEMP cfg))).
Proof.
  intros Hv Hn. unfold valid in Hv. unfold init_completed in Hn.
  apply andb_true_iff in Hv as [L Hv]. apply negb_true_iff in L.
  unfold create, cls. rewrite run_bind.
  assert (exists l o w0,
            run net __new__ w = (Returned (Some l), w0)
            /\ cls_instance w0 = Some l /\ wire w0 = wire w
            /\ nth_error (objects w0) l = Some o /\ _initialized o = false)
    as (l & o & w0 & -> & Hl & Hw & Ho & Hi).
  { destruct (cls_instance w) as [l|] eqn:Hl.
    - destruct (nth_error (objects w) l) as [o|] eqn:Ho; [|discriminate].
      exists l, o, w. rewrite (run_new_existing _ _ _ Hl). auto.
    - exists (List.length (objects w)), blank. eexists.
      rewrite (run_new_first _ _ Hl L). repeat split. world. apply nth_error_new. }
  cbn [and_then on_object]. rewrite run_bind.
  rewrite (run_async_init_first _ _ _ _ _ Ho Hi). cbv zeta.
  destruct (net _ assistant_obj _) as [a|e]; [|destruct (is_Exception e)];
    cbn [and_then run]; intro E; try discriminate E; injection E as <- <-;
    exists l; unfold initialized, model_configurations, after_init; world;
    rewrite (nth_error_update _ _ _ _ _ Ho); auto.
Qed.

(** ** The model configurations *)

(** C9.  On the singleton, once its initialization has completed, no public
    operation changes the three (model id, temperature) pairs: neither the
    constructor, [async_init], [create], [get_instance], nor any request
    method, whatever the remote side answers. *)
Theorem model_configurations_immutable
    (cfg : config) (op : operation) (net : remote) (w : world) (self : loc) :
  cls_instance w = Some self ->
  initialized w self = true ->
  model_configurations (snd (run net (perform cfg self op) w)) self
  = model_configurations w self.
Proof.
  intros Hl Hi. initialized_object Hi o Ho.
  destruct op as [| | | |T m]; cbn [perform].
  - rewrite run_bind, (run_new_existing _ _ _ Hl). reflexivity.
  - rewrite (run_async_init_done cfg net _ _ _ Ho); auto.
  - rewrite run_bind, (create_again cfg net _ _ _ Hl Ho); auto.
  - rewrite run_bind, (get_instance_again net _ _ _ Hl Ho); auto.
  - unfold model_configurations.
    assert (preserves objects (invoke cfg self m ;; Return tt)) as P.
    { apply preserves_bind.
      - apply invoke_preserves; reflexivity.
      - intro; apply preserves_return. }
    rewrite (P net w). reflexivity.
Qed.

Lemma model_configurations_immutable_witness :
  model_configurations
    (snd (run (Sample.answers "GIF")
            (perform Sample.cfg 0 (OpRequest (ClassifyContentType 0))) Sample.ready))
    0
  = model_configurations Sample.ready 0.
Proof.
  exact (model_configurations_immutable Sample.cfg
           (OpRequest (ClassifyContentType 0)) (Sample.answers "GIF")
           Sample.ready 0 eq_refl eq_refl).
Defined.

(** ** Concurrent initializers *)

(** C1, at an input where the code departs from it: two [create()] tasks in
    a new process.  Each task runs up to its awaited retrieval before any
    reply arrives.  The lock of [async_init] is a new object in each call, so
    the second task acquires its own lock at once and finds the flag still
    unset: two retrievals are on the wire.  When the first reply is an
    assistant and the second a failure, the first caller returns with the
    assistant set, and the second caller's completion then replaces it by
    [None]. *)
Theorem concurrent_create_retrieves_twice (cfg : config) :
  let retrieve := AssistantsRetrieve (ASSISTANT_ID cfg) in
  let answer := Sample.answers "ok" 0 in
  let failure := Sample.down Sample.timeout 0 in
  let started :=
    loop [mkEvent 0 answer; mkEvent 1 answer]
      ([Ready (create cfg); Ready (create cfg)], fresh_world) in
  let first_done := loop [mkEvent 0 answer] started in
  let second_done := loop [mkEvent 1 failure] first_done in
  wire (snd started) = [Call retrieve; Call retrieve]
  /\ count_retrieve (wire (snd second_done)) = 2
  /\ async_locks (snd started) = [true; true]
  /\ nth_error (fst first_done) 0 = Some (Over (Returned (Some 0)))
  /\ assistant_of (snd first_done) 0 = Some (Some (mkAssistant (ASSISTANT_ID cfg)))
  /\ nth_error (fst second_done) 1 = Some (Over (Returned (Some 0)))
  /\ assistant_of (snd second_done) 0 = Some None.
Proof. repeat split. Qed.

(** The second initializer of two assigns the model configurations again,
    to the same constants: they are the same after each completion. *)
Example late_initializer_keeps_configurations :
  let answer := Sample.answers "ok" 0 in
  let started :=
    loop [mkEvent 0 answer; mkEvent 1 answer]
      ([Ready (create Sample.cfg); Ready (create Sample.cfg)], fresh_world) in
  let first_done := loop [mkEvent 0 answer] started in
  let second_done := loop [mkEvent 1 (Sample.down Sample.timeout 0)] first_done in
  init_completed (snd first_done) = true
  /\ model_configurations (snd second_done) 0
     = model_configurations (snd first_done) 0.
Proof. split; reflexivity. Qed.

(** An initializer that starts while none has completed reaches its own
    retrieval, whatever other initializers are suspended: the check of the
    flag passes and the lock it takes is new. *)
Lemma initializer_issues_retrieve (cfg : config) (w : world) :
  valid w = true -> init_completed w = false ->
  exists (k : reply assistant_obj -> coro (option loc)) (w' : world),
    advance (create cfg) w = (Pending (AssistantsRetrieve (ASSISTANT_ID cfg)) k, w')
    /\ wire w' = (wire w ++ [Call (AssistantsRetrieve (ASSISTANT_ID cfg))])%list
    /\ valid w' = true /\ init_completed w' = false.
Proof.
  intros Hv Hn. unfold valid in Hv. unfold init_completed in Hn.
  apply andb_true_iff in Hv as [L Hv]. apply negb_true_iff in L.
  unfold create, cls, __new__, async_init, with_, acquire, release, modify,
    new_asyncio_Lock, setattr, getattr, deref, on_object.
  destruct (cls_instance w) as [l|] eqn:Hl.
  - destruct (nth_error (objects w) l) as [o|] eqn:Ho; [|discriminate].
    repeat first
      [ progress cbn [advance bind ensuring try_except negb with_client client await
                      modify setattr getattr deref]
      | progress world
      | rewrite Hl | rewrite Ho | rewrite Hn | rewrite nth_append_new
      | rewrite (nth_error_update _ _ _ _ _ Ho) ].
    eexists; eexists; split; [reflexivity|]. unfold valid, init_completed.
    world. rewrite Hl, L, (nth_error_update _ _ _ _ _ Ho). cbn. auto.
  - repeat first
      [ progress cbn [advance bind ensuring try_except negb with_client client await
                      modify setattr getattr deref blank _initialized]
      | progress world
      | rewrite Hl | rewrite L | rewrite nth_append_new | rewrite nth_error_new
      | erewrite nth_error_update by apply nth_error_new ].
    eexists; eexists; split; [reflexivity|]. unfold valid, init_completed.
    world. erewrite nth_error_update by apply nth_error_new. cbn. auto.
Qed.

Lemma nth_error_update_other (A : Type) (xs : list A) (i j : nat) (x : A) :
  i <> j -> nth_error (update i x xs) j = nth_error xs j.
Proof.
  revert i j; induction xs as [|h t IH]; intros [|i] [|j] H; simpl; auto;
    congruence.
Qed.

Lemma count_retrieve_issue (cs : list call) (id : string) :
  count_retrieve (cs ++ [Call (AssistantsRetrieve id)])
  = S (count_retrieve cs).
Proof.
  unfold count_retrieve. rewrite filter_app, length_app. simpl. lia.
Qed.

(** [n] initializers that all start before any reply arrives issue [n]
    retrievals. *)
Lemma start_initializers (cfg : config) (n : nat) :
  forall (k : nat) (ts : list (task (option loc))) (w : world),
    valid w = true -> init_completed w = false ->
    (forall i, k <= i < k + n -> nth_error ts i = Some (Ready (create cfg))) ->
    count_retrieve (wire (snd (loop (map start (seq k n)) (ts, w))))
    = count_retrieve (wire w) + n
    /\ init_completed (snd (loop (map start (seq k n)) (ts, w))) = false.
Proof.
  induction n as [|n IH]; intros k ts w Hv Hn Hts.
  - simpl. split; [lia|assumption].
  - cbn [seq map loop fold_left step start ev_task ev_net].
    rewrite (Hts k) by lia. cbn [turn].
    destruct (initializer_issues_retrieve cfg w Hv Hn) as (c & w' & -> & Hw & Hv' & Hn').
    fold (loop (map start (seq (S k) n))
            (update k (Pending (AssistantsRetrieve (ASSISTANT_ID cfg)) c) ts, w')).
    destruct (IH (S k) (update k (Pending (AssistantsRetrieve (ASSISTANT_ID cfg)) c) ts)
                w' Hv' Hn') as [Hc Hi].
    + intros i Hi. rewrite nth_error_update_other by lia. apply Hts; lia.
    + split; [|exact Hi]. rewrite Hc, Hw, count_retrieve_issue. lia.
Qed.

(** X21.  [n] initializers in a new process that all start before any reply
    arrives issue [n] retrievals. *)
Corollary concurrent_creates_retrieve_each (cfg : config) (n : nat) :
  count_retrieve
    (wire (snd (loop (map start (seq 0 n))
                  (repeat (Ready (create cfg)) n, fresh_world))))
  = n.
Proof.
  destruct (start_initializers cfg n 0 (repeat (Ready (create cfg)) n) fresh_world)
    as [H _]; try reflexivity.
  - intros i Hi. apply nth_error_repeat. lia.
  - exact H.
Qed.

(** While an initializer is suspended in its retrieval the instance exists,
    with its client but without its flag: [get_instance] raises. *)
Example get_instance_during_initialization :
  let started :=
    loop [start 0] ([Ready (create Sample.cfg)], fresh_world) in
  assistant_of (snd started) 0 = None
  /\ fst (run (Sample.answers "ok") get_instance (snd started)) = Raised not_ready.
Proof. split; reflexivity. Qed.

(** * Further properties of the methods *)

(** ** The single-shot content methods *)

(** X1.  [text_summarizer] on an initialized client issues one chat-completion
    request: the message model and temperature, a cap of 100 tokens, the
    system instruction and the description between the two fixed lines.  It
    returns the stripped text of the first choice, or the fixed string when
    the completion has no choice or the call failed. *)
Theorem text_summarizer_contract
    (net : remote) (w : world) (self : loc) (description : string) :
  initialized w self = true ->
  fails_with_Exception net ->
  exists (o : instance) (model : string) (temperature : float),
    nth_error (objects w) self = Some o
    /\ message_model_id o = Some model
    /\ message_model_temp o = Some temperature
    /\ let sent :=
         ChatCompletionsCreate model
           [ mkMsg "system"
               (Text "Your purpose is to provide a concise, succint summary of text descriptions.");
             mkMsg "user"
               (Text ("Create a concise, succint, one-to-two-sentence summary for the following description:"
                      ++ nl ++ nl ++ description ++ nl ++ nl ++ "Summary:")) ]
           100 temperature in
       let r := run net (text_summarizer self description) w in
       wire (snd r) = (wire w ++ [Call sent])%list
       /\ fst r
          = Returned
              match net (List.length (wire w)) completion sent with
              | Replied response =>
                  match choices response with
                  | [] => "No summary available"
                  | ch :: _ => Text.strip (choice_text ch)
                  end
              | Failed _ => "No summary available"
              end.
Proof.
  intros Hi Hex. initialized_object Hi o Ho.
  exists o, mm, mt. repeat (split; [assumption|]). cbv zeta.
  unfold text_summarizer. exec Ho.
  destruct (net _ completion _) as [[[|ch chs]]|e] eqn:E; exec Ho.
  - split; reflexivity.
  - split; reflexivity.
  - rewrite (Hex _ _ _ _ E). exec Ho. split; reflexivity.
Qed.

Lemma text_summarizer_contract_witness :
  exists (o : instance) (model : string) (temperature : float),
    nth_error (objects Sample.ready) 0 = Some o
    /\ message_model_id o = Some model
    /\ message_model_temp o = Some temperature
    /\ let sent :=
         ChatCompletionsCreate model
           [ mkMsg "system"
               (Text "Your purpose is to provide a concise, succint summary of text descriptions.");
             mkMsg "user"
               (Text ("Create a concise, succint, one-to-two-sentence summary for the following description:"
                      ++ nl ++ nl ++ "a bicycle" ++ nl ++ nl ++ "Summary:")) ]
           100 temperature in
       let r := run (Sample.answers " A bike. ") (text_summarizer 0 "a bicycle")
                  Sample.ready in
       wire (snd r) = (wire Sample.ready ++ [Call sent])%list
       /\ fst r
          = Returned
              match Sample.answers " A bike. " (List.length (wire Sample.ready))
                      sent with
              | Replied response =>
                  match choices response with
                  | [] => "No summary available"
                  | ch :: _ => Text.strip (choice_text ch)
                  end
              | Failed _ => "No summary available"
              end.
Proof.
  exact (text_summarizer_contract (Sample.answers " A bike. ") Sample.ready 0
           "a bicycle" eq_refl (fails_with_Exception_answers " A bike. ")).
Defined.

(** X2.  [link_summarizer]: the same contract, with the instruction to describe
    the page from its URL and the URL in the user message. *)
Theorem link_summarizer_contract
    (net : remote) (w : world) (self : loc) (url : string) :
  initialized w self = true ->
  fails_with_Exception net ->
  exists (o : instance) (model : string) (temperature : float),
    nth_error (objects w) self = Some o
    /\ message_model_id o = Some model
    /\ message_model_temp o = Some temperature
    /\ let sent :=
         ChatCompletionsCreate model
           [ mkMsg "system"
               (Text ("Your purpose is to describe the content of a webpage based on its URL."
                      ++ nl ++ nl
                      ++ "Extract any details you can from the names, titles, and descriptions in the URL."
                      ++ nl ++ nl
                      ++ "Provide a concise, succint summary of the content that would be useful for someone who can't access the page."));
             mkMsg "user"
               (Text ("Please describe the content of the webpage at the following URL: "
                      ++ url ++ nl ++ nl ++ "Description:")) ]
           100 temperature in
       let r := run net (link_summarizer self url) w in
       wire (snd r) = (wire w ++ [Call sent])%list
       /\ fst r
          = Returned
              match net (List.length (wire w)) completion sent with
              | Replied response =>
                  match choices response with
                  | [] => "No summary available"
                  | ch :: _ => Text.strip (choice_text ch)
                  end
              | Failed _ => "No summary available"
              end.
Proof.
  intros Hi Hex. initialized_object Hi o Ho.
  exists o, mm, mt. repeat (split; [assumption|]). cbv zeta.
  unfold link_summarizer. exec Ho.
  destruct (net _ completion _) as [[[|ch chs]]|e] eqn:E; exec Ho.
  - split; reflexivity.
  - split; reflexivity.
  - rewrite (Hex _ _ _ _ E). exec Ho. split; reflexivity.
Qed.

Lemma link_summarizer_contract_witness :
  exists (o : instance) (model : string) (temperature : float),
    nth_error (objects Sample.ready) 0 = Some o
    /\ message_model_id o = Some model
    /\ message_model_temp o = Some temperature
    /\ let sent :=
         ChatCompletionsCreate model
           [ mkMsg "system"
               (Text ("Your purpose is to describe the content of a webpage based on its URL."
                      ++ nl ++ nl
                      ++ "Extract any details you can from the names, titles, and descriptions in the URL."
                      ++ nl ++ nl
                      ++ "Provide a concise, succint summary of the content that would be useful for someone who can't access the page."));
             mkMsg "user"
               (Text ("Please describe the content of the webpage at the following URL: "
                      ++ "https://example.org/bike" ++ nl ++ nl ++ "Description:")) ]
           100 temperature in
       let r := run (Sample.down Sample.timeout)
                  (link_summarizer 0 "https://example.org/bike") Sample.ready in
       wire (snd r) = (wire Sample.ready ++ [Call sent])%list
       /\ fst r
          = Returned
              match Sample.down Sample.timeout (List.length (wire Sample.ready))
                      sent with
              | Replied response =>
                  match choices response with
                  | [] => "No summary available"
                  | ch :: _ => Text.strip (choice_text ch)
                  end
              | Failed _ => "No summary available"
              end.
Proof.
  exact (link_summarizer_contract (Sample.down Sample.timeout) Sample.ready 0
           "https://example.org/bike" eq_refl
           (fails_with_Exception_down Sample.timeout eq_refl)).
Defined.

(** X3.  [image_describer] on an initialized client issues one chat-completion
    request: the image model and temperature, a cap of 300 tokens, the
    system instruction, and a user message of two parts, the question and
    the image as a [data:image/jpeg;base64,] URL of the argument. *)
Theorem image_describer_sends
    (net : remote) (w : world) (self : loc) (base64_str : string) :
  initialized w self = true ->
  exists (o : instance) (model : string) (temperature : float),
    nth_error (objects w) self = Some o
    /\ image_model_id o = Some model
    /\ image_model_temp o = Some temperature
    /\ wire (snd (run net (image_describer self base64_str) w))
       = (wire w
          ++ [Call
                (ChatCompletionsCreate model
                   [ mkMsg "system"
                       (Text ("Your purpose is to provide a description of the image content embeded in the message."
                              ++ nl ++ nl
                              ++ "Provide a succinct description useful for someone who can't see it. "
                              ++ "Include any relevant text or context in the image, but try to keep it concise."));
                     mkMsg "user"
                       (Parts
                          [ TextPart
                              "What is in this image? Provide a succinct description useful for someone who can't see it.";
                            ImageUrlPart ("data:image/jpeg;base64," ++ base64_str) ]) ]
                   300 temperature)])%list.
Proof.
  intros Hi. initialized_object Hi o Ho.
  exists o, im, it. repeat (split; [assumption|]).
  unfold image_describer. exec Ho.
  destruct (net _ completion _) as [[[|ch chs]]|e]; exec Ho; try reflexivity.
  destruct (is_Exception e); exec Ho; reflexivity.
Qed.

Lemma image_describer_sends_witness :
  exists (o : instance) (model : string) (temperature : float),
    nth_error (objects Sample.ready) 0 = Some o
    /\ image_model_id o = Some model
    /\ image_model_temp o = Some temperature
    /\ wire (snd (run (Sample.answers "A red bicycle.") (image_describer 0 "aGk=")
                    Sample.ready))
       = (wire Sample.ready
          ++ [Call
                (ChatCompletionsCreate model
                   [ mkMsg "system"
                       (Text ("Your purpose is to provide a description of the image content embeded in the message."
                              ++ nl ++ nl
                              ++ "Provide a succinct description useful for someone who can't see it. "
                              ++ "Include any relevant text or context in the image, but try to keep it concise."));
                     mkMsg "user"
                       (Parts
                          [ TextPart
                              "What is in this image? Provide a succinct description useful for someone who can't see it.";
                            ImageUrlPart ("data:image/jpeg;base64," ++ "aGk=") ]) ]
                   300 temperature)])%list.
Proof.
  exact (image_describer_sends (Sample.answers "A red bicycle.") Sample.ready 0
           "aGk=" eq_refl).
Defined.

(** ** Threads *)

(** X5.  [create_asst_thread] on an initialized client logs the user id at level
    DEBUG, issues one thread-create call and returns the id of the thread it
    got; when the call fails it logs the user id and the error at level ERROR
    and returns [None]. *)
Theorem create_asst_thread_contract
    (net : remote) (w : world) (self : loc) (user_id : Z) :
  initialized w self = true ->
  fails_with_Exception net ->
  let r := run net (create_asst_thread self user_id) w in
  let debug :=
    mkLog DEBUG ("Creating assistant thread for user " ++ Text.of_int user_id) in
  wire (snd r) = (wire w ++ [Call ThreadsCreate])%list
  /\ match net (List.length (wire w)) thread ThreadsCreate with
     | Replied t =>
         fst r = Returned (Some (thread_id_of t))
         /\ logs (snd r) = (logs w ++ [debug])%list
     | Failed e =>
         fst r = Returned None
         /\ logs (snd r)
            = (logs w
               ++ [debug;
                   mkLog ERROR
                     ("Failed to create thread for user " ++ Text.of_int user_id
                      ++ ": " ++ exn_str e)])%list
     end.
Proof.
  intros Hi Hex r debug. subst r debug. initialized_object Hi o Ho.
  unfold create_asst_thread. exec Ho. world.
  destruct (net _ thread _) as [t|e] eqn:E; exec Ho.
  - repeat split.
  - rewrite (Hex _ _ _ _ E). exec Ho. world. rewrite <- app_assoc. repeat split.
Qed.

Lemma create_asst_thread_contract_witness :
  let r := run (Sample.answers "ok") (create_asst_thread 0 42) Sample.ready in
  let debug := mkLog DEBUG ("Creating assistant thread for user " ++ Text.of_int 42) in
  wire (snd r) = (wire Sample.ready ++ [Call ThreadsCreate])%list
  /\ fst r = Returned (Some "thread_1")
  /\ logs (snd r) = (logs Sample.ready ++ [debug])%list.
Proof.
  exact (create_asst_thread_contract (Sample.answers "ok") Sample.ready 0 42 eq_refl
           (fails_with_Exception_answers "ok")).
Defined.

(** ** A client that was constructed and not initialized *)

(** X7.  On a client whose [client] attribute was never assigned, the methods
    whose body is inside [try] issue no remote call: reading the attribute
    raises [AttributeError], which the handler logs at level ERROR, and the
    sentinel is returned. *)
Theorem guarded_methods_without_client
    (cfg : config) (T : Type) (m : method T) (net : remote) (w : world)
    (self : loc) (o : instance) :
  nth_error (objects w) self = Some o ->
  client o = None ->
  arguments_exist w m = true ->
  guarded m = true ->
  let r := run net (invoke cfg self m) w in
  fst r = Returned (sentinel m)
  /\ wire (snd r) = wire w
  /\ error_logged w (snd r).
Proof.
  intros Ho Hc Ha Hg r. subst r. unfold error_logged.
  assert (forall w0, objects w0 = objects w ->
            run net (getattr "client" client self) w0
            = (Raised (no_attribute "client"), w0)) as G.
  { intros w0 E. unfold getattr. rewrite run_bind. cbn [deref run]. rewrite E, Ho.
    cbn [run and_then]. rewrite Hc. reflexivity. }
  destruct m; try discriminate Hg; cbn [invoke sentinel].
  - unfold create_asst_thread.
    rewrite run_try_except, run_bind, run_logger. cbn [and_then].
    rewrite run_bind, G by reflexivity. cbn [and_then is_Exception no_attribute exn_cls].
    rewrite run_bind, run_logger. cbn [and_then run fst snd]. world.
    repeat split. eexists [_], _. rewrite <- app_assoc. reflexivity.
  - unfold add_to_asst_thread.
    rewrite run_try_except, run_bind, G by reflexivity.
    cbn [and_then is_Exception no_attribute exn_cls].
    rewrite run_bind, run_logger. cbn [and_then run fst snd]. world.
    repeat split. eexists [], _. reflexivity.
  - unfold image_describer.
    rewrite run_try_except, run_bind, G by reflexivity.
    cbn [and_then is_Exception no_attribute exn_cls].
    rewrite run_bind, run_logger. cbn [and_then run fst snd]. world.
    repeat split. eexists [], _. reflexivity.
  - unfold text_summarizer.
    rewrite run_try_except, run_bind, G by reflexivity.
    cbn [and_then is_Exception no_attribute exn_cls].
    rewrite run_bind, run_logger. cbn [and_then run fst snd]. world.
    repeat split. eexists [], _. reflexivity.
  - unfold link_summarizer.
    rewrite run_try_except, run_bind, G by reflexivity.
    cbn [and_then is_Exception no_attribute exn_cls].
    rewrite run_bind, run_logger. cbn [and_then run fst snd]. world.
    repeat split. eexists [], _. reflexivity.
  - cbn [arguments_exist] in Ha.
    destruct (nth_error (pylists w) OAI_messages) as [msgs|] eqn:Hl; [|discriminate].
    unfold determine_content_type.
    rewrite run_bind, (run_unpack _ _ _ _ Hl). cbn [and_then].
    rewrite run_try_except, run_bind, G by reflexivity.
    cbn [and_then is_Exception no_attribute exn_cls].
    rewrite run_bind, run_logger. cbn [and_then run fst snd]. world.
    repeat split. eexists [], _. reflexivity.
Qed.

Lemma guarded_methods_without_client_witness :
  let r := run (Sample.answers "ok")
             (invoke Sample.cfg 0 (PostMessage "thread_1" Sample.hello))
             Sample.constructed in
  fst r = Returned false
  /\ wire (snd r) = wire Sample.constructed
  /\ error_logged Sample.constructed (snd r).
Proof.
  exact (guarded_methods_without_client Sample.cfg bool
           (PostMessage "thread_1" Sample.hello) (Sample.answers "ok")
           Sample.constructed 0 blank eq_refl eq_refl eq_refl eq_refl).
Defined.

(** X8.  [request_asst_response] reads [self.client] before its [try]: on a
    client whose [client] attribute was never assigned the [AttributeError]
    reaches the caller, and nothing is logged or sent. *)
Theorem request_asst_response_without_client
    (cfg : config) (net : remote) (w : world) (self : loc) (o : instance)
    (thread_id : string) :
  nth_error (objects w) self = Some o ->
  client o = None ->
  run net (request_asst_response cfg self thread_id) w
  = (Raised (no_attribute "client"), w).
Proof.
  intros Ho Hc. unfold request_asst_response, getattr.
  rewrite run_bind, run_bind, (run_deref _ _ _ _ Ho). cbn [and_then]. rewrite Hc.
  reflexivity.
Qed.

Lemma request_asst_response_without_client_witness :
  run (Sample.answers "ok") (request_asst_response Sample.cfg 0 "thread_1")
    Sample.constructed
  = (Raised (no_attribute "client"), Sample.constructed).
Proof.
  exact (request_asst_response_without_client Sample.cfg (Sample.answers "ok")
           Sample.constructed 0 blank "thread_1" eq_refl eq_refl).
Defined.

(** ** Initialization: what [create()] stores *)

(** The constructor on a world where no initializer has completed: it
    returns the singleton, new or not, whose flag is unset, and touches
    neither the log, the wire nor the asyncio locks. *)
Lemma new_before_initialization (net : remote) (w : world) :
  valid w = true -> init_completed w = false ->
  exists l o w0,
    run net __new__ w = (Returned (Some l), w0)
    /\ cls_instance w0 = Some l /\ cls_lock w0 = false
    /\ wire w0 = wire w /\ logs w0 = logs w /\ async_locks w0 = async_locks w
    /\ pylists w0 = pylists w
    /\ nth_error (objects w0) l = Some o /\ _initialized o = false.
Proof.
  intros Hv Hn. unfold valid in Hv. unfold init_completed in Hn.
  apply andb_true_iff in Hv as [L Hv]. apply negb_true_iff in L.
  destruct (cls_instance w) as [l|] eqn:Hl.
  - destruct (nth_error (objects w) l) as [o|] eqn:Ho; [|discriminate].
    exists l, o, w. rewrite (run_new_existing _ _ _ Hl). auto 10.
  - exists (List.length (objects w)), blank. eexists.
    rewrite (run_new_first _ _ Hl L). repeat split. world. apply nth_error_new.
Qed.

(** X9.  The retrieval of [create()] fails softly: when no initializer has
    completed and the retrieval is answered, the assistant is stored and a
    record logged at level INFO; when it fails with an [Exception], [None] is
    stored and the error logged at level ERROR.  Either way [create()] returns
    the instance, initialized, after exactly one retrieval. *)
Theorem create_stores_retrieval_outcome
    (cfg : config) (net : remote) (w : world) :
  valid w = true -> init_completed w = false ->
  fails_with_Exception net ->
  exists (l : loc) (w' : world),
    run net (create cfg) w = (Returned (Some l), w')
    /\ initialized w' l = true
    /\ wire w' = (wire w ++ [Call (AssistantsRetrieve (ASSISTANT_ID cfg))])%list
    /\ match net (List.length (wire w)) assistant_obj
               (AssistantsRetrieve (ASSISTANT_ID cfg)) with
       | Replied a =>
           assistant_of w' l = Some (Some a)
           /\ logs w'
              = (logs w
                 ++ [mkLog INFO
                       ("Assistant " ++ ASSISTANT_ID cfg ++ " retrieved successfully.")])%list
       | Failed e =>
           assistant_of w' l = Some None
           /\ logs w'
              = (logs w
                 ++ [mkLog ERROR
                       ("Error retrieving assistant " ++ ASSISTANT_ID cfg ++ ": "
                        ++ exn_str e)])%list
       end.
Proof.
  intros Hv Hn Hex.
  destruct (new_before_initialization net w Hv Hn)
    as (l & o & w0 & N & Hl & L & Hw & Hlg & Hal & Hpl & Ho & Hi).
  unfold create, cls. rewrite run_bind, N. cbn [and_then on_object].
  rewrite run_bind, (run_async_init_first _ _ _ _ _ Ho Hi). cbv zeta.
  rewrite Hw.
  destruct (net _ assistant_obj _) as [a|e] eqn:E;
    [|rewrite (Hex _ _ _ _ E)]; cbn [and_then run];
    exists l; eexists; (split; [reflexivity|]);
    unfold initialized, assistant_of, after_init; world;
    rewrite (nth_error_update _ _ _ _ _ Ho), Hw, Hlg; repeat split.
Qed.

Lemma create_stores_retrieval_outcome_witness :
  exists (l : loc) (w' : world),
    run (Sample.down Sample.timeout) (create Sample.cfg) fresh_world
    = (Returned (Some l), w')
    /\ initialized w' l = true
    /\ wire w' = [Call (AssistantsRetrieve "asst_1")]
    /\ assistant_of w' l = Some None
    /\ logs w'
       = [mkLog ERROR "Error retrieving assistant asst_1: Request timed out."].
Proof.
  exact (create_stores_retrieval_outcome Sample.cfg (Sample.down Sample.timeout)
           fresh_world eq_refl eq_refl
           (fails_with_Exception_down Sample.timeout eq_refl)).
Defined.

(** X10.  An initialization that is cancelled in its retrieval can be done again:
    [create()] raises the cancellation and leaves the flag unset and the
    locks free, and the next [create()] issues a retrieval of its own and
    returns the initialized instance. *)
Theorem cancelled_create_can_be_retried
    (cfg : config) (net net' : remote) (w : world) (e : exn) (a : assistant_obj) :
  valid w = true -> init_completed w = false ->
  let retrieve := AssistantsRetrieve (ASSISTANT_ID cfg) in
  net (List.length (wire w)) assistant_obj retrieve = Failed e ->
  is_Exception e = false ->
  net' (S (List.length (wire w))) assistant_obj retrieve = Replied a ->
  exists (l : loc) (w1 w2 : world),
    run net (create cfg) w = (Raised e, w1)
    /\ init_completed w1 = false
    /\ async_locks w1 = (async_locks w ++ [false])%list
    /\ run net' (create cfg) w1 = (Returned (Some l), w2)
    /\ initialized w2 l = true
    /\ assistant_of w2 l = Some (Some a)
    /\ wire w2 = (wire w ++ [Call retrieve; Call retrieve])%list.
Proof.
  intros Hv Hn retrieve E He E'. subst retrieve.
  destruct (new_before_initialization net w Hv Hn)
    as (l & o & w0 & N & Hl & L & Hw & Hlg & Hal & Hpl & Ho & Hi).
  exists l. unfold create at 1, cls. rewrite run_bind, N. cbn [and_then on_object].
  rewrite run_bind, (run_async_init_first _ _ _ _ _ Ho Hi). cbv zeta.
  rewrite Hw, E, He. cbn [and_then].
  set (o1 := with_client (mkClient (OPENAI_API_KEY cfg)) o).
  set (w1 := after_init w0 l o1 [] (AssistantsRetrieve (ASSISTANT_ID cfg))).
  assert (nth_error (objects w1) l = Some o1) as Ho1
    by (unfold w1, after_init; world; apply (nth_error_update _ _ _ _ _ Ho)).
  assert (_initialized o1 = false) as Hi1 by exact Hi.
  assert (cls_instance w1 = Some l) as Hl1 by exact Hl.
  assert (List.length (wire w1) = S (List.length (wire w))) as Hw1
    by (unfold w1, after_init; world; rewrite last_length, Hw; reflexivity).
  exists w1. eexists. split; [reflexivity|].
  split; [unfold init_completed; rewrite Hl1, Ho1; exact Hi1|].
  split; [unfold w1, after_init; world; rewrite Hal; reflexivity|].
  unfold create, cls. rewrite run_bind, (run_new_existing _ _ _ Hl1).
  cbn [and_then on_object].
  rewrite run_bind, (run_async_init_first _ _ _ _ _ Ho1 Hi1). cbv zeta.
  rewrite Hw1, E'. cbn [and_then run].
  split; [reflexivity|].
  unfold initialized, assistant_of, after_init. world.
  rewrite (nth_error_update _ _ _ _ _ Ho1).
  repeat split. unfold w1, after_init. world. rewrite Hw, <- app_assoc. reflexivity.
Qed.

Lemma cancelled_create_can_be_retried_witness :
  exists (l : loc) (w1 w2 : world),
    run (Sample.down (mkExn CancelledError "")) (create Sample.cfg) fresh_world
    = (Raised (mkExn CancelledError ""), w1)
    /\ init_completed w1 = false
    /\ async_locks w1 = [false]
    /\ run (Sample.answers "ok") (create Sample.cfg) w1 = (Returned (Some l), w2)
    /\ initialized w2 l = true
    /\ assistant_of w2 l = Some (Some (mkAssistant "asst_1"))
    /\ wire w2
       = [Call (AssistantsRetrieve "asst_1"); Call (AssistantsRetrieve "asst_1")].
Proof.
  exact (cancelled_create_can_be_retried Sample.cfg
           (Sample.down (mkExn CancelledError "")) (Sample.answers "ok")
           fresh_world (mkExn CancelledError "") (mkAssistant "asst_1")
           eq_refl eq_refl eq_refl eq_refl eq_refl).
Defined.

(** ** The constructor and the accessor *)

(** X12.  [OpenAIClient()] creates at most one object and hands out the same
    instance from then on: a call that returned allocated nothing or one
    blank object, and the next call returns the same address and leaves the
    world alone. *)
Theorem constructor_returns_singleton
    (net net' : remote) (w w1 : world) (r : option loc) :
  run net __new__ w = (Returned r, w1) ->
  (objects w1 = objects w \/ objects w1 = (objects w ++ [blank])%list)
  /\ run net' __new__ w1 = (Returned r, w1).
Proof.
  intro H. split.
  - destruct (cls_instance w) as [l|] eqn:Hl.
    + rewrite (run_new_existing _ _ _ Hl) in H. injection H as <- <-. auto.
    + destruct (cls_lock w) eqn:L.
      * unfold __new__, with_, acquire in H. rewrite run_bind in H.
        cbn [run] in H. rewrite Hl in H. rewrite run_bind in H. cbn [run] in H.
        cbn [lock_held] in H. rewrite L in H. discriminate H.
      * rewrite (run_new_first _ _ Hl L) in H. injection H as <- <-. auto.
  - destruct (new_result _ _ _ _ H) as (l & -> & Hl).
    apply (run_new_existing _ _ _ Hl).
Qed.

Lemma constructor_returns_singleton_witness :
  let w1 := snd (run (Sample.answers "ok") __new__ fresh_world) in
  (objects w1 = objects fresh_world
   \/ objects w1 = (objects fresh_world ++ [blank])%list)
  /\ run (Sample.answers "ok") __new__ w1 = (Returned (Some 0), w1).
Proof.
  exact (constructor_returns_singleton (Sample.answers "ok") (Sample.answers "ok")
           fresh_world (snd (run (Sample.answers "ok") __new__ fresh_world))
           (Some 0) eq_refl).
Defined.

Lemma length_update (A : Type) (xs : list A) (i : nat) (x : A) :
  List.length (update i x xs) = List.length xs.
Proof.
  revert i; induction xs as [|h t IH]; intros [|i]; simpl; auto.
Qed.

(** X13.  [get_instance] in a process where the class was never instantiated
    raises the not-ready error and yet creates the instance; a later
    [create()] initializes that same object and returns its address. *)
Theorem get_instance_constructs
    (cfg : config) (net net' : remote) (w : world) :
  cls_instance w = None -> cls_lock w = false ->
  fails_with_Exception net' ->
  exists (w1 w2 : world),
    run net get_instance w = (Raised not_ready, w1)
    /\ objects w1 = (objects w ++ [blank])%list
    /\ cls_instance w1 = Some (List.length (objects w))
    /\ run net' (create cfg) w1 = (Returned (Some (List.length (objects w))), w2)
    /\ initialized w2 (List.length (objects w)) = true
    /\ List.length (objects w2) = List.length (objects w1).
Proof.
  intros Hl L Hex.
  set (w1 := mkWorld (Some (List.length (objects w))) false
               (objects w ++ [blank])%list (pylists w) (async_locks w) (logs w)
               (wire w)).
  assert (nth_error (objects w1) (List.length (objects w)) = Some blank) as Ho
    by apply nth_error_new.
  assert (run net' (create cfg) w1
          = and_then (run net' (async_init cfg (List.length (objects w))) w1)
              (fun _ w2 => (Returned (Some (List.length (objects w))), w2))) as C.
  { unfold create, cls. rewrite run_bind.
    rewrite (run_new_existing net' w1 (List.length (objects w)) eq_refl).
    cbn [and_then on_object]. rewrite run_bind. reflexivity. }
  rewrite (run_async_init_first cfg net' w1 _ blank Ho eq_refl) in C.
  cbv zeta in C.
  exists w1.
  destruct (net' _ assistant_obj _) as [a|e] eqn:E;
    [|rewrite (Hex _ _ _ _ E) in C]; cbn [and_then] in C;
    eexists; (split; [|split; [reflexivity|split; [reflexivity|split; [exact C|]]]]).
  1, 3: unfold get_instance, cls; rewrite run_bind, (run_new_first _ _ Hl L);
        cbn [and_then on_object]; rewrite run_bind;
        erewrite run_deref by exact Ho; reflexivity.
  all: unfold initialized, after_init; world;
       rewrite (nth_error_update _ _ _ _ _ Ho); split; [reflexivity|];
       apply length_update.
Qed.

Lemma get_instance_constructs_witness :
  exists (w1 w2 : world),
    run (Sample.answers "ok") get_instance fresh_world = (Raised not_ready, w1)
    /\ objects w1 = [blank]
    /\ cls_instance w1 = Some 0
    /\ run (Sample.answers "ok") (create Sample.cfg) w1 = (Returned (Some 0), w2)
    /\ initialized w2 0 = true
    /\ List.length (objects w2) = List.length (objects w1).
Proof.
  exact (get_instance_constructs Sample.cfg (Sample.answers "ok") (Sample.answers "ok")
           fresh_world eq_refl eq_refl (fails_with_Exception_answers "ok")).
Defined.

(** ** What the request methods do and never do *)

(** X14.  No retry: on an initialized client each method whose body is inside
    [try] issues exactly one remote call, whatever the remote side replies. *)
Theorem guarded_methods_issue_one_call
    (cfg : config) (T : Type) (m : method T) (net : remote) (w : world) (self : loc) :
  initialized w self = true ->
  arguments_exist w m = true ->
  guarded m = true ->
  List.length (wire (snd (run net (invoke cfg self m) w)))
  = S (List.length (wire w)).
Proof.
  intros Hi Ha Hg. initialized_object Hi o Ho.
  destruct m; try discriminate Hg; cbn [invoke].
  - unfold create_asst_thread. exec Ho.
    destruct (net _ thread _) as [t|e]; exec Ho;
      [|destruct (is_Exception e); exec Ho]; world; apply last_length.
  - unfold add_to_asst_thread. exec Ho.
    destruct (net _ unit _) as [t|e]; exec Ho;
      [|destruct (is_Exception e); exec Ho]; world; apply last_length.
  - unfold image_describer. exec Ho.
    destruct (net _ completion _) as [[[|ch chs]]|e]; exec Ho;
      [| |destruct (is_Exception e); exec Ho]; world; apply last_length.
  - unfold text_summarizer. exec Ho.
    destruct (net _ completion _) as [[[|ch chs]]|e]; exec Ho;
      [| |destruct (is_Exception e); exec Ho]; world; apply last_length.
  - unfold link_summarizer. exec Ho.
    destruct (net _ completion _) as [[[|ch chs]]|e]; exec Ho;
      [| |destruct (is_Exception e); exec Ho]; world; apply last_length.
  - cbn [arguments_exist] in Ha.
    destruct (nth_error (pylists w) OAI_messages) as [msgs|] eqn:Hl; [|discriminate].
    unfold determine_content_type. exec Ho.
    destruct (net _ completion _) as [[[|ch chs]]|e]; cbn [first choices]; exec Ho;
      [| destruct (Text.contains _ _); exec Ho
       | destruct (is_Exception e); exec Ho ]; world; apply last_length.
Qed.

Lemma guarded_methods_issue_one_call_witness :
  List.length
    (wire (snd (run (Sample.down Sample.timeout)
                  (invoke Sample.cfg 0 (SummarizeText "a bicycle")) Sample.ready)))
  = S (List.length (wire Sample.ready)).
Proof.
  exact (guarded_methods_issue_one_call Sample.cfg string (SummarizeText "a bicycle")
           (Sample.down Sample.timeout) Sample.ready 0 eq_refl eq_refl eq_refl).
Defined.

(** X15.  No request method writes to the class, to a client object or to a list
    of a caller: on every world, initialized or not, for every remote side
    and every way the call ends, [_instance], the client objects and the
    callers' lists are what they were. *)
Theorem request_methods_write_nothing
    (cfg : config) (T : Type) (m : method T) (net : remote) (w : world) (self : loc) :
  let w' := snd (run net (invoke cfg self m) w) in
  cls_instance w' = cls_instance w
  /\ objects w' = objects w
  /\ pylists w' = pylists w.
Proof.
  cbv zeta. repeat split.
  - apply (invoke_preserves _ cls_instance); reflexivity.
  - apply (invoke_preserves _ objects); reflexivity.
  - apply (invoke_preserves _ pylists); reflexivity.
Qed.

Lemma contains_In (x : string) (xs : list string) :
  Text.contains x xs = true -> In x xs.
Proof.
  induction xs as [|y ys IH]; simpl; [discriminate|].
  intro H. apply orb_true_iff in H as [H|H].
  - left. symmetry. apply String.eqb_eq. exact H.
  - right. auto.
Qed.

(** X16.  [determine_content_type] never returns a word outside the four: on every
    world and for every reply, a result that is not [None] is one of
    "message", "gif", "youtube", "website". *)
Theorem determine_content_type_returns_a_type
    (net : remote) (w : world) (self OAI_messages : loc) (word : string) :
  fst (run net (determine_content_type self OAI_messages) w) = Returned (Some word) ->
  In word ["message"; "gif"; "youtube"; "website"].
Proof.
  unfold determine_content_type.
  rewrite run_bind.
  destruct (run net (unpack OAI_messages) w) as [[msgs| |] w0]; cbn [and_then fst];
    try discriminate.
  rewrite run_try_except, run_bind.
  destruct (run net (getattr "client" client self) w0) as [[c|e|] w1];
    cbn [and_then]; try discriminate.
  2: { destruct (is_Exception e); [|discriminate].
       rewrite run_bind, run_logger. cbn [and_then run fst]. discriminate. }
  rewrite run_bind.
  destruct (run net (getattr "chain_of_thought_model_id" chain_of_thought_model_id self) w1)
    as [[model|e|] w2]; cbn [and_then]; try discriminate.
  2: { destruct (is_Exception e); [|discriminate].
       rewrite run_bind, run_logger. cbn [and_then run fst]. discriminate. }
  rewrite run_bind.
  destruct (run net (getattr "chain_of_thought_temp" chain_of_thought_temp self) w2)
    as [[temperature|e|] w3]; cbn [and_then]; try discriminate.
  2: { destruct (is_Exception e); [|discriminate].
       rewrite run_bind, run_logger. cbn [and_then run fst]. discriminate. }
  rewrite run_bind, run_await.
  destruct (net _ completion _) as [[[|ch chs]]|e]; cbn [and_then first choices].
  - rewrite run_bind. cbn [run and_then is_Exception exn_cls].
    rewrite run_bind, run_logger. cbn [and_then run fst]. discriminate.
  - rewrite run_bind. cbn [run and_then].
    destruct (Text.contains _ _) eqn:C.
    + cbn [run fst]. intro H. injection H as <-. apply contains_In. exact C.
    + rewrite run_bind, run_logger. cbn [and_then run fst]. discriminate.
  - destruct (is_Exception e); [|discriminate].
    rewrite run_bind, run_logger. cbn [and_then run fst]. discriminate.
Qed.

Lemma determine_content_type_returns_a_type_witness :
  In "youtube" ["message"; "gif"; "youtube"; "website"].
Proof.
  exact (determine_content_type_returns_a_type (Sample.answers " YouTube ")
           Sample.ready 0 0 "youtube" eq_refl).
Defined.

(** X17.  A completion without choices: [determine_content_type] indexes the
    empty list, the [IndexError] is handled, logged at level ERROR, and
    [None] is returned. *)
Theorem determine_content_type_no_choices
    (net : remote) (w : world) (self OAI_messages : loc) (msgs : list oai_message) :
  initialized w self = true ->
  nth_error (pylists w) OAI_messages = Some msgs ->
  (forall model messages max_tokens temperature,
     net (List.length (wire w)) completion
       (ChatCompletionsCreate model messages max_tokens temperature)
     = Replied (mkCompletion [])) ->
  let r := run net (determine_content_type self OAI_messages) w in
  fst r = Returned None
  /\ logs (snd r)
     = (logs w
        ++ [mkLog ERROR "Error determining content type: list index out of range"])%list.
Proof.
  intros Hi Hl Hn r. subst r. initialized_object Hi o Ho.
  unfold determine_content_type. exec Ho. rewrite Hn. exec Ho.
  cbn [first choices]. exec Ho. cbn [is_Exception exn_cls]. exec Ho.
  split; reflexivity.
Qed.

Lemma determine_content_type_no_choices_witness :
  let r := run (Sample.replying []) (determine_content_type 0 0) Sample.ready in
  fst r = Returned None
  /\ logs (snd r)
     = (logs Sample.ready
        ++ [mkLog ERROR "Error determining content type: list index out of range"])%list.
Proof.
  exact (determine_content_type_no_choices (Sample.replying []) Sample.ready 0 0
           [mkMsg "user" (Text "show me a cat")] eq_refl eq_refl
           (fun _ _ _ _ => eq_refl)).
Defined.

(** X18.  The calls of [request_asst_response] on an initialized client: it opens
    the stream for the thread and the configured assistant; when that fails
    nothing else is issued; when the stream opened it awaits its end and
    leaves the stream context, whether the stream ended well or not. *)
Theorem request_asst_response_calls
    (cfg : config) (net : remote) (w : world) (self : loc) (thread_id : string) :
  initialized w self = true ->
  let stream := RunsStream thread_id (ASSISTANT_ID cfg) in
  wire (snd (run net (request_asst_response cfg self thread_id) w))
  = match net (List.length (wire w)) unit stream with
    | Failed _ => (wire w ++ [Call stream])%list
    | Replied _ =>
        (wire w ++ [Call stream; Call StreamUntilDone; Call StreamClose])%list
    end.
Proof.
  intros Hi stream. subst stream. initialized_object Hi o Ho.
  unfold request_asst_response, with_. exec Ho. world.
  destruct (net _ unit (RunsStream _ _)) as [[]|e]; exec Ho.
  - destruct (net _ unit StreamUntilDone) as [[]|e1]; exec Ho;
      destruct (net _ unit StreamClose) as [[]|e2]; exec Ho;
      repeat match goal with
             | |- context [is_Exception ?x] => destruct (is_Exception x); exec Ho
             end;
      cbn [snd]; world; rewrite <- ?app_assoc; reflexivity.
  - destruct (is_Exception e); exec Ho; reflexivity.
Qed.

Lemma request_asst_response_calls_witness :
  wire (snd (run (Sample.answers "ok")
               (request_asst_response Sample.cfg 0 "thread_1") Sample.ready))
  = (wire Sample.ready
     ++ [Call (RunsStream "thread_1" "asst_1"); Call StreamUntilDone;
         Call StreamClose])%list.
Proof.
  exact (request_asst_response_calls Sample.cfg (Sample.answers "ok") Sample.ready 0
           "thread_1" eq_refl).
Defined.

(** ** Calls one after the other *)

Lemma run_times_create_again (cfg : config) (net : remote) (n : nat) (w : world)
    (l : loc) (o : instance) :
  cls_instance w = Some l -> nth_error (objects w) l = Some o ->
  _initialized o = true ->
  run_times net (create cfg) n w = (repeat (Returned (Some l)) n, w).
Proof.
  intros Hl Ho Hi. induction n as [|n IH]; [reflexivity|].
  cbn [run_times repeat]. rewrite (create_again cfg net _ _ _ Hl Ho Hi), IH.
  reflexivity.
Qed.

(** The first [create()] to complete returns after one retrieval. *)
Lemma create_first_call (cfg : config) (net : remote) (w : world) :
  valid w = true -> init_completed w = false ->
  fails_with_Exception net ->
  exists (l : loc) (w' : world),
    run net (create cfg) w = (Returned (Some l), w')
    /\ wire w' = (wire w ++ [Call (AssistantsRetrieve (ASSISTANT_ID cfg))])%list.
Proof.
  intros Hv Hn Hex.
  destruct (new_before_initialization net w Hv Hn)
    as (l & o & w0 & N & Hl & L & Hw & Hlg & Hal & Hpl & Ho & Hi).
  unfold create, cls. rewrite run_bind, N. cbn [and_then on_object].
  rewrite run_bind, (run_async_init_first _ _ _ _ _ Ho Hi). cbv zeta.
  destruct (net _ assistant_obj _) as [a|e] eqn:E;
    [|rewrite (Hex _ _ _ _ E)]; cbn [and_then run];
    exists l; eexists; (split; [reflexivity|]);
    unfold after_init; world; rewrite Hw; reflexivity.
Qed.

(** X19.  Any number of [create()] calls, each awaited before the next, from a
    world where no initializer has completed: every call returns the same
    instance and one retrieval is issued in all. *)
Theorem sequential_creates_retrieve_once
    (cfg : config) (net : remote) (w : world) (n : nat) :
  valid w = true -> init_completed w = false ->
  fails_with_Exception net ->
  exists l : loc,
    fst (run_times net (create cfg) (S n) w) = repeat (Returned (Some l)) (S n)
    /\ count_retrieve (wire (snd (run_times net (create cfg) (S n) w)))
       = S (count_retrieve (wire w)).
Proof.
  intros Hv Hn Hex.
  destruct (create_first_call cfg net w Hv Hn Hex) as (l & w' & C & Hw).
  destruct (create_result _ _ _ _ _ C) as (l' & o & E & Hl & Ho & Hi).
  injection E as <-.
  exists l. cbn [run_times]. rewrite C.
  rewrite (run_times_create_again cfg net n _ _ _ Hl Ho Hi). cbn [fst snd repeat].
  split; [reflexivity|]. rewrite Hw. apply count_retrieve_issue.
Qed.

Lemma sequential_creates_retrieve_once_witness :
  exists l : loc,
    fst (run_times (Sample.answers "ok") (create Sample.cfg) 3 fresh_world)
    = repeat (Returned (Some l)) 3
    /\ count_retrieve
         (wire (snd (run_times (Sample.answers "ok") (create Sample.cfg) 3
                       fresh_world)))
       = 1.
Proof.
  exact (sequential_creates_retrieve_once Sample.cfg (Sample.answers "ok")
           fresh_world 2 eq_refl eq_refl (fails_with_Exception_answers "ok")).
Defined.

(** ** Locks *)

(** X20.  However [create()] ends (returned, or raised on a cancelled retrieval)
    it holds no lock afterwards: from a world where every lock is free, the
    class lock and every asyncio lock, the new one included, are free. *)
Theorem create_holds_no_lock (cfg : config) (net : remote) (w : world) :
  valid w = true -> locks_free w = true ->
  locks_free (snd (run net (create cfg) w)) = true.
Proof.
  intros Hv Hf. destruct (init_completed w) eqn:Hn.
  - unfold init_completed in Hn.
    destruct (cls_instance w) as [l|] eqn:Hl; [|discriminate].
    destruct (nth_error (objects w) l) as [o|] eqn:Ho; [|discriminate].
    rewrite (create_again cfg net _ _ _ Hl Ho Hn). exact Hf.
  - destruct (new_before_initialization net w Hv Hn)
      as (l & o & w0 & N & Hl & L & Hw & Hlg & Hal & Hpl & Ho & Hi).
    unfold create, cls. rewrite run_bind, N. cbn [and_then on_object].
    rewrite run_bind, (run_async_init_first _ _ _ _ _ Ho Hi). cbv zeta.
    unfold locks_free in Hf. apply andb_true_iff in Hf as [_ Hf].
    destruct (net _ assistant_obj _) as [a|e]; [|destruct (is_Exception e)];
      cbn [and_then run snd]; unfold locks_free, after_init; world;
      rewrite L, Hal, forallb_app, Hf; reflexivity.
Qed.

Lemma create_holds_no_lock_witness :
  locks_free
    (snd (run (Sample.down (mkExn CancelledError "")) (create Sample.cfg) fresh_world))
  = true.
Proof.
  exact (create_holds_no_lock Sample.cfg (Sample.down (mkExn CancelledError ""))
           fresh_world eq_refl eq_refl).
Defined.

(** * Any schedule *)

(** ** Soundness of [safe] for the event loop *)

Lemma Forall_update (A : Type) (Q : A -> Prop) (xs : list A) (i : nat) (x : A) :
  Forall Q xs -> Q x -> Forall Q (update i x xs).
Proof.
  intros H Hx. revert i. induction H as [|h t Hh Ht IH]; intros [|i]; simpl;
    constructor; auto.
Qed.

Section InterferenceSound.

Variable A : Type.
Variable P : world -> Prop.
Variable G : world -> world -> Prop.
Variable good : outcome A -> Prop.
Variable expected : call -> Prop.
Variable initial : coro A -> Prop.

Hypothesis G_refl : forall w, G w w.
Hypothesis G_trans : forall w1 w2 w3, G w1 w2 -> G w2 w3 -> G w1 w3.
Hypothesis initial_safe :
  forall c, initial c -> forall w, P w -> safe A P G good expected c w w.

Lemma advance_safe (c : coro A) (w0 w : world) :
  safe A P G good expected c w0 w ->
  P (snd (advance c w)) /\ G w0 (snd (advance c w))
  /\ task_safe A P G good expected initial (fst (advance c w)) (snd (advance c w))
  /\ (forall c', fst (advance c w) <> Ready c').
Proof.
  revert w0 w. induction c as [a|e|k IH|w' k IH|l k IH|B r k IH]; intros w0 w H;
    cbn [safe advance] in *.
  - destruct H as (HP & HG & Hg). repeat split; auto. discriminate.
  - destruct H as (HP & HG & Hg). repeat split; auto. discriminate.
  - apply IH; exact H.
  - apply IH; exact H.
  - destruct H as [L H]. rewrite L. apply IH; exact H.
  - destruct H as (HP & HG & He & Hk). cbn [fst snd task_safe].
    repeat split; auto; [|discriminate]. exists (issue r w). auto.
Qed.

Lemma task_safe_stable (t : task A) (w w' : world) :
  task_safe A P G good expected initial t w -> G w w' ->
  task_safe A P G good expected initial t w'.
Proof.
  destruct t as [c|B r k|o]; cbn [task_safe]; auto.
  intros (He & ws & Hws & Hk) HG. split; auto. exists ws. split; eauto.
Qed.

Lemma turn_safe (net : forall B : Type, request B -> reply B) (t : task A) (w : world) :
  P w -> task_safe A P G good expected initial t w ->
  P (snd (turn net t w)) /\ G w (snd (turn net t w))
  /\ task_safe A P G good expected initial (fst (turn net t w)) (snd (turn net t w)).
Proof.
  intros HP Ht. destruct t as [c|B r k|o]; cbn [turn task_safe] in *.
  - destruct (advance_safe c w w (initial_safe c Ht w HP)) as (H1 & H2 & H3 & _).
    auto.
  - destruct Ht as (He & ws & Hws & Hk).
    destruct (advance_safe (k (net B r)) w w (Hk _ w HP Hws)) as (H1 & H2 & H3 & _).
    auto.
  - cbn [fst snd task_safe]. auto.
Qed.

(** Every schedule keeps [P], guarantees [G] from the first world to the
    last, and leaves every task safe. *)
Lemma loop_safe (sched : list event) :
  forall (ts : list (task A)) (w : world),
    P w -> Forall (fun t => task_safe A P G good expected initial t w) ts ->
    P (snd (loop sched (ts, w))) /\ G w (snd (loop sched (ts, w)))
    /\ Forall (fun t => task_safe A P G good expected initial t
                          (snd (loop sched (ts, w))))
         (fst (loop sched (ts, w))).
Proof.
  induction sched as [|ev sched IH]; intros ts w HP Hts.
  - cbn. auto.
  - cbn [loop fold_left]. fold (loop sched (step ev (ts, w))).
    assert (P (snd (step ev (ts, w))) /\ G w (snd (step ev (ts, w)))
            /\ Forall (fun t => task_safe A P G good expected initial t
                                  (snd (step ev (ts, w))))
                 (fst (step ev (ts, w)))) as (H1 & H2 & H3).
    { cbn [step]. destruct (nth_error ts (ev_task ev)) as [t|] eqn:E.
      - assert (task_safe A P G good expected initial t w) as Ht
          by (rewrite Forall_forall in Hts; apply Hts; eapply nth_error_In; eauto).
        destruct (turn_safe (ev_net ev) t w HP Ht) as (T1 & T2 & T3).
        destruct (turn (ev_net ev) t w) as [t' w']. cbn [fst snd] in *.
        split; [exact T1|]. split; [exact T2|]. apply Forall_update; auto.
        eapply Forall_impl; [|exact Hts]. intros t0 H0.
        exact (task_safe_stable t0 w w' H0 T2).
      - cbn [fst snd]. auto. }
    destruct (step ev (ts, w)) as [ts1 w1]. cbn [fst snd] in *.
    destruct (IH ts1 w1 H1 H3) as (I1 & I2 & I3). eauto.
Qed.

End InterferenceSound.

(** ** The singleton under any schedule *)

Lemma progress_refl (w : world) : progress w w.
Proof.
  split; [auto|]. intros o H. exists o. auto.
Qed.

Lemma progress_trans (w1 w2 w3 : world) :
  progress w1 w2 -> progress w2 w3 -> progress w1 w3.
Proof.
  intros [A1 B1] [A2 B2]. split; [auto|].
  intros o H. destruct (B1 o H) as (o2 & H2 & C2 & I2).
  destruct (B2 o2 H2) as (o3 & H3 & C3 & I3). exists o3. auto.
Qed.

Ltac run_safe := cbn -[String.append singleton progress ends_well is_retrieval].

Lemma singleton_intro (cfg : config) (o : instance) pl al lg wr :
  (client o = None \/ client o = Some (mkClient (OPENAI_API_KEY cfg))) ->
  (_initialized o = true -> exists a, o = configured cfg a) ->
  singleton cfg (mkWorld (Some 0) false [o] pl al lg wr).
Proof. intros H1 H2. split; [reflexivity|]. cbn. auto. Qed.

Lemma progress_intro (ci : option loc) (o o' : instance) cl pl al lg wr cl' pl' al' lg' wr' :
  (forall c, client o = Some c -> client o' = Some c) ->
  (_initialized o = true -> _initialized o' = true) ->
  progress (mkWorld ci cl [o] pl al lg wr) (mkWorld ci cl' [o'] pl' al' lg' wr').
Proof.
  intros H1 H2. split; [auto|]. cbn. intros o0 E. injection E as <-.
  exists o'. auto.
Qed.

Lemma progress_resumed (o : instance) (w' : world) cl pl al lg wr :
  progress (mkWorld (Some 0) cl [o] pl al lg wr) w' ->
  exists o', cls_instance w' = Some 0 /\ objects w' = [o']
             /\ (forall c, client o = Some c -> client o' = Some c)
             /\ (_initialized o = true -> _initialized o' = true).
Proof.
  intros [H1 H2]. destruct (H2 o eq_refl) as (o' & E & C & I).
  exists o'. repeat split; auto.
Qed.

Lemma progress_from_nothing (w' : world) cl pl al lg wr :
  progress (mkWorld None cl [] pl al lg wr) w'.
Proof. split; cbn; discriminate. Qed.

(** The rest of [create()] after its retrieval, from whatever the other
    tasks made of the world. *)
Ltac resume cfg :=
  let x := fresh "x" in
  let w' := fresh "w'" in
  let HP := fresh "HP" in
  let HG := fresh "HG" in
  let o' := fresh "o'" in
  let Hc := fresh "Hc" in
  let Ho := fresh "Ho" in
  let Hcl := fresh "Hcl" in
  let L' := fresh "L'" in
  let He := fresh "He" in
  intros x w' HP HG; world;
  destruct (progress_resumed _ _ _ _ _ _ _ HG) as (o' & Hc & Ho & Hcl & _);
  specialize (Hcl _ eq_refl);
  destruct w' as [ci' cl' objs' pl' al' lg' wr'];
  cbn [cls_instance objects] in Hc, Ho; subst ci' objs';
  destruct HP as [L' HP]; cbn [cls_lock cls_instance objects] in L', HP; subst cl';
  destruct o' as [i' c' a' cm' ct' mm' mt' im' it']; cbn [client] in Hcl; subst c';
  destruct x as [a|e]; [|destruct (is_Exception e) eqn:He]; run_safe;
    try rewrite He; run_safe; world;
  [ split; [apply singleton_intro; cbn; [auto|intros _; eexists; reflexivity]|];
    split; [apply progress_intro; cbn; auto|reflexivity]
  | split; [apply singleton_intro; cbn; [auto|intros _; eexists; reflexivity]|];
    split; [apply progress_intro; cbn; auto|reflexivity]
  | split; [apply singleton_intro; [auto|exact (proj2 HP)]|];
    split; [apply progress_intro; auto|right; exact He] ].

Lemma create_safe (cfg : config) (w : world) :
  singleton cfg w ->
  safe (option loc) (singleton cfg) progress ends_well (is_retrieval cfg)
    (create cfg) w w.
Proof.
  intro HS. pose proof HS as [L H].
  destruct w as [ci cl objs pl al lg wr]. cbn [cls_lock cls_instance objects] in L, H.
  subst cl.
  destruct ci as [[|l]|], objs as [|o [|o2 objs]]; try contradiction.
  - unfold create, cls, __new__, async_init. run_safe.
    destruct (_initialized o) eqn:Hi; run_safe.
    + split; [exact HS|]. split; [apply progress_refl|reflexivity].
    + rewrite nth_append_new. run_safe. rewrite Hi. run_safe.
      split; [reflexivity|].
      split; [apply singleton_intro; [right; reflexivity|cbn; rewrite Hi; discriminate]|].
      split; [apply progress_intro; [|rewrite Hi; discriminate]|].
      { destruct H as [[C|C] _]; intros c E; rewrite C in E; [discriminate|exact E]. }
      split; [reflexivity|].
      resume cfg.
  - unfold create, cls, __new__, async_init. run_safe.
    split; [reflexivity|]. split; [apply nth_append_new|].
    split; [apply singleton_intro; [right; reflexivity|discriminate]|].
    split; [apply progress_from_nothing|].
    split; [reflexivity|].
    resume cfg.
Qed.

Lemma get_instance_safe (cfg : config) (w : world) :
  singleton cfg w ->
  safe (option loc) (singleton cfg) progress ends_well (is_retrieval cfg)
    get_instance w w.
Proof.
  intro HS. pose proof HS as [L H].
  destruct w as [ci cl objs pl al lg wr]. cbn [cls_lock cls_instance objects] in L, H.
  subst cl.
  destruct ci as [[|l]|], objs as [|o [|o2 objs]]; try contradiction.
  - unfold get_instance, cls, __new__. run_safe.
    destruct (_initialized o); run_safe.
    + split; [exact HS|]. split; [apply progress_refl|reflexivity].
    + split; [exact HS|]. split; [apply progress_refl|left; reflexivity].
  - unfold get_instance, cls, __new__. run_safe.
    split; [reflexivity|].
    split; [apply singleton_intro; [left; reflexivity|discriminate]|].
    split; [apply progress_from_nothing|left; reflexivity].
Qed.

Lemma accessor_safe (cfg : config) (c : coro (option loc)) :
  accessor cfg c ->
  forall w, singleton cfg w ->
    safe (option loc) (singleton cfg) progress ends_well (is_retrieval cfg) c w w.
Proof.
  intros [-> | ->] w H; [apply create_safe|apply get_instance_safe]; exact H.
Qed.

Lemma schedule_safe (cfg : config) (sched : list event)
    (ts : list (task (option loc))) (w : world) :
  singleton cfg w ->
  Forall (fun t => task_safe (option loc) (singleton cfg) progress ends_well
                     (is_retrieval cfg) (accessor cfg) t w) ts ->
  singleton cfg (snd (loop sched (ts, w)))
  /\ progress w (snd (loop sched (ts, w)))
  /\ Forall (fun t => task_safe (option loc) (singleton cfg) progress ends_well
                        (is_retrieval cfg) (accessor cfg) t
                        (snd (loop sched (ts, w))))
       (fst (loop sched (ts, w))).
Proof.
  apply loop_safe.
  - apply progress_refl.
  - apply progress_trans.
  - apply accessor_safe.
Qed.

Lemma accessors_ready (cfg : config) (cs : list (coro (option loc))) (w : world) :
  Forall (accessor cfg) cs ->
  Forall (fun t => task_safe (option loc) (singleton cfg) progress ends_well
                     (is_retrieval cfg) (accessor cfg) t w)
    (map (fun c => Ready c) cs).
Proof.
  intro H. induction H; cbn; constructor; auto.
Qed.

Lemma singleton_fresh (cfg : config) : singleton cfg fresh_world.
Proof. split; cbn; auto. Qed.

(** X22.  However the event loop interleaves any number of [create()] and
    [get_instance()] tasks in a new process, and whatever the remote side
    replies, the class lock is free between turns, at most one client object
    exists, [_instance] is that object, and an object whose flag is set has
    every attribute as [async_init] completes it. *)
Theorem singleton_under_any_schedule
    (cfg : config) (cs : list (coro (option loc))) (sched : list event) :
  Forall (accessor cfg) cs ->
  let w := snd (loop sched (map (fun c => Ready c) cs, fresh_world)) in
  singleton cfg w /\ List.length (objects w) <= 1.
Proof.
  intros H w.
  destruct (schedule_safe cfg sched _ fresh_world (singleton_fresh cfg)
              (accessors_ready cfg cs fresh_world H)) as (HS & _ & _).
  fold w in HS. split; [exact HS|].
  destruct HS as [_ HS].
  destruct (cls_instance w) as [[|l]|], (objects w) as [|o [|o2 objs]];
    try contradiction; cbn; lia.
Qed.

Lemma singleton_under_any_schedule_witness :
  let w :=
    snd (loop [start 0; start 1; start 2;
               mkEvent 2 (Sample.down Sample.timeout 0);
               mkEvent 0 (Sample.answers "ok" 0)]
           (map (fun c => Ready c)
              [create Sample.cfg; get_instance; create Sample.cfg],
            fresh_world)) in
  singleton Sample.cfg w /\ List.length (objects w) <= 1.
Proof.
  apply (singleton_under_any_schedule Sample.cfg
           [create Sample.cfg; get_instance; create Sample.cfg]).
  constructor; [left; reflexivity|].
  constructor; [right; reflexivity|].
  constructor; [left; reflexivity|constructor].
Defined.

(** X23.  No task ever waits for a lock, and every task ends well: under any
    schedule of [create()] and [get_instance()] tasks in a new process a
    task has not run yet, or is suspended in its retrieval, or is over
    having returned the singleton (address 0), raised the not-ready error,
    or raised the cancellation of its retrieval. *)
Theorem accessors_never_block
    (cfg : config) (cs : list (coro (option loc))) (sched : list event)
    (i : nat) (t : task (option loc)) :
  Forall (accessor cfg) cs ->
  nth_error (fst (loop sched (map (fun c => Ready c) cs, fresh_world))) i = Some t ->
  match t with
  | Ready c => accessor cfg c
  | Pending r _ => is_retrieval cfg (Call r)
  | Over o => ends_well o
  end.
Proof.
  intros H E.
  destruct (schedule_safe cfg sched _ fresh_world (singleton_fresh cfg)
              (accessors_ready cfg cs fresh_world H)) as (_ & _ & HT).
  rewrite Forall_forall in HT. specialize (HT t (nth_error_In _ _ E)).
  destruct t as [c|B r k|o]; cbn [task_safe] in HT; [exact HT| |exact HT].
  destruct HT as [HT _]. exact HT.
Qed.

Lemma accessors_never_block_witness :
  ends_well (Returned (Some 0)).
Proof.
  apply (accessors_never_block Sample.cfg [create Sample.cfg; get_instance]
           [start 0; start 1; mkEvent 0 (Sample.answers "ok" 0)] 0
           (Over (Returned (Some 0)))).
  - constructor; [left; reflexivity|].
    constructor; [right; reflexivity|constructor].
  - vm_compute. reflexivity.
Defined.

(** X24.  Initialization is permanent: under any schedule of [create()] and
    [get_instance()] tasks, once an initializer has completed, whatever
    runs afterwards leaves the flag set and the three model configurations
    at the constants of the configuration. *)
Theorem initialization_is_permanent
    (cfg : config) (cs : list (coro (option loc))) (before after : list event) :
  Forall (accessor cfg) cs ->
  let st1 := loop before (map (fun c => Ready c) cs, fresh_world) in
  let st2 := loop after st1 in
  init_completed (snd st1) = true ->
  init_completed (snd st2) = true
  /\ model_configurations (snd st2) 0
     = Some ((Some (COT_MODEL_ID cfg), Some (COT_MODEL_TEMP cfg)),
             (Some (MSG_MODEL_ID cfg), Some (MSG_MODEL_TEMP cfg)),
             (Some (IMG_MODEL_ID cfg), Some (IMG_MODEL_TEMP cfg)))
  /\ model_configurations (snd st1) 0 = model_configurations (snd st2) 0.
Proof.
  intros H st1 st2 Hc.
  destruct (schedule_safe cfg before _ fresh_world (singleton_fresh cfg)
              (accessors_ready cfg cs fresh_world H)) as (HS1 & _ & HT1).
  fold st1 in HS1, HT1.
  assert (st1 = (fst st1, snd st1)) as E1 by (destruct st1; reflexivity).
  destruct (schedule_safe cfg after (fst st1) (snd st1) HS1 HT1) as (HS2 & HG & _).
  rewrite <- E1 in HS2, HG. fold st2 in HS2, HG.
  unfold init_completed, model_configurations in *.
  destruct HS1 as [_ HS1]. destruct HS2 as [_ HS2]. destruct HG as [G1 G2].
  destruct (cls_instance (snd st1)) as [[|l]|] eqn:C1; try discriminate;
    destruct (objects (snd st1)) as [|o1 [|o1' objs1]] eqn:O1; try contradiction.
  cbn [nth_error] in Hc |- *.
  rewrite (G1 _ eq_refl) in *.
  destruct (G2 _ eq_refl) as (o2 & O2 & _ & I2). rewrite O2 in *.
  cbn [nth_error]. specialize (I2 Hc).
  destruct HS1 as [_ HS1]. destruct HS2 as [_ HS2].
  destruct (HS1 Hc) as [a1 ->]. destruct (HS2 I2) as [a2 ->].
  repeat split.
Qed.

Lemma initialization_is_permanent_witness :
  let st1 :=
    loop [start 0; start 1; mkEvent 0 (Sample.answers "ok" 0)]
      (map (fun c => Ready c) [create Sample.cfg; create Sample.cfg], fresh_world) in
  let st2 := loop [mkEvent 1 (Sample.down Sample.timeout 0)] st1 in
  init_completed (snd st2) = true
  /\ model_configurations (snd st2) 0
     = Some ((Some "gpt-cot", Some 0.25%float),
             (Some "gpt-msg", Some 0.75%float),
             (Some "gpt-img", Some 0.5%float))
  /\ model_configurations (snd st1) 0 = model_configurations (snd st2) 0.
Proof.
  apply (initialization_is_permanent Sample.cfg [create Sample.cfg; create Sample.cfg]
           [start 0; start 1; mkEvent 0 (Sample.answers "ok" 0)]
           [mkEvent 1 (Sample.down Sample.timeout 0)]).
  - constructor; [left; reflexivity|].
    constructor; [left; reflexivity|constructor].
  - vm_compute. reflexivity.
Defined.

(** X25.  [get_instance] never hands out a half-initialized instance, whatever
    ran before: after any schedule of [create()] and [get_instance()] tasks
    in a new process, a [get_instance()] that returns gives the singleton,
    changes nothing, and every attribute of the instance is set as
    [async_init] completes it. *)
Theorem get_instance_returns_initialized
    (cfg : config) (cs : list (coro (option loc))) (sched : list event)
    (net : remote) (r : option loc) (w' : world) :
  Forall (accessor cfg) cs ->
  let w := snd (loop sched (map (fun c => Ready c) cs, fresh_world)) in
  run net get_instance w = (Returned r, w') ->
  r = Some 0 /\ w' = w /\ initialized w 0 = true
  /\ exists a, objects w = [configured cfg a].
Proof.
  intros H w E.
  destruct (schedule_safe cfg sched _ fresh_world (singleton_fresh cfg)
              (accessors_ready cfg cs fresh_world H)) as (HS & _ & _).
  fold w in HS. destruct HS as [L HS].
  destruct (cls_instance w) as [[|l]|] eqn:C;
    destruct (objects w) as [|o [|o2 objs]] eqn:O; try contradiction.
  - destruct (_initialized o) eqn:I.
    + rewrite (get_instance_again net w 0 o C) in E
        by (rewrite ?O; first [reflexivity | exact I]).
      injection E as <- <-. destruct HS as [_ HS]. destruct (HS eq_refl) as [a ->].
      unfold initialized. rewrite O. cbn. eauto.
    + unfold get_instance, cls in E.
      rewrite run_bind, (run_new_existing _ _ _ C) in E. cbn [and_then on_object] in E.
      rewrite run_bind in E. erewrite run_deref in E by (rewrite O; reflexivity).
      cbn [and_then] in E. rewrite I in E. discriminate E.
  - unfold get_instance, cls in E.
    rewrite run_bind, (run_new_first _ _ C L) in E. cbn [and_then on_object] in E.
    rewrite run_bind in E. erewrite run_deref in E by (world; apply nth_error_new).
    cbn [and_then blank _initialized negb run] in E. discriminate E.
Qed.

Lemma get_instance_returns_initialized_witness :
  let w :=
    snd (loop [start 0; start 1; mkEvent 1 (Sample.answers "ok" 0)]
           (map (fun c => Ready c) [create Sample.cfg; create Sample.cfg],
            fresh_world)) in
  Some 0 = Some 0 /\ w = w /\ initialized w 0 = true
  /\ exists a, objects w = [configured Sample.cfg a].
Proof.
  apply (get_instance_returns_initialized Sample.cfg
           [create Sample.cfg; create Sample.cfg]
           [start 0; start 1; mkEvent 1 (Sample.answers "ok" 0)]
           (Sample.answers "ok") (Some 0)
           (snd (loop [start 0; start 1; mkEvent 1 (Sample.answers "ok" 0)]
                   (map (fun c => Ready c) [create Sample.cfg; create Sample.cfg],
                    fresh_world)))).
  - constructor; [left; reflexivity|].
    constructor; [left; reflexivity|constructor].
  - vm_compute. reflexivity.
Defined.

(** ** Witnesses of earlier lemmas *)

Lemma image_describer_returns_witness :
  exists sent : request completion,
    fst (run (Sample.answers "A red bicycle.") (image_describer 0 "aGk=") Sample.ready)
    = Returned
        match Sample.answers "A red bicycle." (List.length (wire Sample.ready)) sent with
        | Replied response =>
            match choices response with
            | [] => "No description available"
            | ch :: _ => choice_text ch
            end
        | Failed _ => "No description available"
        end.
Proof.
  exact (image_describer_returns (Sample.answers "A red bicycle.") Sample.ready 0
           "aGk=" eq_refl (fails_with_Exception_answers "A red bicycle.")).
Defined.

Lemma create_initializes_witness :
  exists l,
    Some 0 = Some l /\ cls_instance Sample.created = Some l
    /\ initialized Sample.created l = true
    /\ model_configurations Sample.created l
       = Some ((Some "gpt-cot", Some 0.25%float),
               (Some "gpt-msg", Some 0.75%float),
               (Some "gpt-img", Some 0.5%float)).
Proof.
  exact (create_initializes Sample.cfg (Sample.answers "ok") fresh_world
           Sample.created (Some 0) eq_refl eq_refl eq_refl).
Defined.

(** ** postMessage: what is sent and logged *)

(** X6.  [add_to_asst_thread] on an initialized client issues one message-create
    call with the thread id and the content and role of the message; it logs
    the thread id at level INFO when the call is answered, and the message,
    the thread id and the error at level ERROR when it fails. *)
Theorem add_to_asst_thread_sends
    (net : remote) (w : world) (self : loc) (thread_id : string) (message : GLMessage) :
  initialized w self = true ->
  fails_with_Exception net ->
  let sent := MessagesCreate thread_id (gl_content message) (gl_role message) in
  let r := run net (add_to_asst_thread self thread_id message) w in
  wire (snd r) = (wire w ++ [Call sent])%list
  /\ logs (snd r)
     = (logs w
        ++ [match net (List.length (wire w)) unit sent with
            | Replied _ => mkLog INFO ("Added message to asst thread " ++ thread_id)
            | Failed e =>
                mkLog ERROR
                  ("Failed to add message to thread:" ++ nl ++ gl_str message ++ nl
                   ++ "THREAD:" ++ thread_id ++ nl ++ exn_str e ++ nl)
            end])%list.
Proof.
  intros Hi Hex sent r. subst sent r. initialized_object Hi o Ho.
  unfold add_to_asst_thread. exec Ho.
  destruct (net _ unit _) as [[]|e] eqn:E.
  - exec Ho. split; reflexivity.
  - rewrite (Hex _ _ _ _ E). exec Ho. split; reflexivity.
Qed.

Lemma add_to_asst_thread_sends_witness :
  let r := run (Sample.answers "ok")
             (add_to_asst_thread 0 "thread_1" Sample.hello) Sample.ready in
  wire (snd r) = (wire Sample.ready ++ [Call (MessagesCreate "thread_1" "hello" "user")])%list
  /\ logs (snd r)
     = (logs Sample.ready ++ [mkLog INFO "Added message to asst thread thread_1"])%list.
Proof.
  exact (add_to_asst_thread_sends (Sample.answers "ok") Sample.ready 0 "thread_1"
           Sample.hello eq_refl (fails_with_Exception_answers "ok")).
Defined.
